(** * refuge_certificate_gen.py: batch generation of PDF certificates

    A shallow embedding of the script: the field resolver and the batch
    driver ([process_certificates]), the test driver
    ([process_single_test]), the text overlay renderer
    ([add_text_overlay]) and the entry point ([main]).

    The third-party collaborators (PyMuPDF, pandas, PyYAML, ReportLab, the
    file system and the clock) are black boxes: their answers are the
    fields of a [World], and what the script does to them is recorded in a
    [State] (files written, lines printed). *)

From Stdlib Require Import ZArith String Ascii List Lia.
From Stdlib Require Import PrimFloat Uint63.
From stdpp Require Import base strings gmap list pretty.

Open Scope string_scope.
Open Scope list_scope.

(** ** Python strings

    A [str] is modelled as a [string]; one character of the model is one
    code point below 256 (the Latin-1 range of Unicode, of which ASCII is
    the lower half), so the length of a string is its number of code
    points. *)

Module PyStr.

(** [c.isalnum()], which is [c.isalpha() or c.isdecimal() or c.isdigit()
    or c.isnumeric()] on Unicode's classes.  Below 256 these are the ASCII
    digits and letters, the letters U+00AA, U+00B5, U+00BA, U+00C0 to
    U+00D6, U+00D8 to U+00F6 and U+00F8 to U+00FF (the signs U+00D7 and
    U+00F7 are not letters), the superscripts U+00B2, U+00B3, U+00B9 and the
    fractions U+00BC to U+00BE. *)
Definition isalnum (c : ascii) : bool :=
  let n := nat_of_ascii c in
  (((48 <=? n) && (n <=? 57)) || ((65 <=? n) && (n <=? 90))
   || ((97 <=? n) && (n <=? 122))
   || (n =? 170) || (n =? 181) || (n =? 186)
   || ((192 <=? n) && (n <=? 214)) || ((216 <=? n) && (n <=? 246))
   || ((248 <=? n) && (n <=? 255))
   || (n =? 178) || (n =? 179) || (n =? 185)
   || ((188 <=? n) && (n <=? 190)))%nat.

(** One of the ten ASCII digits (narrower than [str.isdigit]). *)
Definition isdigit (c : ascii) : bool :=
  let n := nat_of_ascii c in ((48 <=? n) && (n <=? 57))%nat.

(** [''.join(f(c) for c in s)] for a character-to-character [f]. *)
Fixpoint map_chars (f : ascii → ascii) (s : string) : string :=
  match s with
  | EmptyString => EmptyString
  | String c s' => String (f c) (map_chars f s')
  end.

Fixpoint all_chars (p : ascii → bool) (s : string) : bool :=
  match s with
  | EmptyString => true
  | String c s' => p c && all_chars p s'
  end.

(** [s.startswith(c)] and [s.endswith(c)] for a one-character [c]. *)
Definition startswith (s : string) (c : ascii) : bool :=
  match s with
  | String c' _ => Ascii.eqb c' c
  | EmptyString => false
  end.

Fixpoint endswith (s : string) (c : ascii) : bool :=
  match s with
  | EmptyString => false
  | String c' EmptyString => Ascii.eqb c' c
  | String _ s' => endswith s' c
  end.

(** Truth value of a string: [not s] holds exactly for the empty one. *)
Definition truthy (s : string) : bool :=
  match s with EmptyString => false | _ => true end.

(** [s.rjust(w, '0')]: zeros on the left up to width [w]. *)
Definition zfill (w : nat) (s : string) : string :=
  String.concat "" (replicate (w - String.length s) "0") +:+ s.

End PyStr.

(** ** [os.path.join] (posixpath), for two components *)

Definition os_path_join (a b : string) : string :=
  if PyStr.startswith b "/" then b
  else if negb (PyStr.truthy a) || PyStr.endswith a "/" then a +:+ b
  else a +:+ "/" +:+ b.

(** ** [datetime] values and [strftime] *)

Record datetime : Type := mk_datetime {
  dt_year : N; dt_month : N; dt_day : N;
  dt_hour : N; dt_minute : N; dt_second : N
}.

Definition month_names : list string :=
  [ "January"; "February"; "March"; "April"; "May"; "June"; "July";
    "August"; "September"; "October"; "November"; "December" ].

(** [%B] in the C locale. *)
Definition month_name (m : N) : string :=
  default "" (month_names !! N.to_nat (m - 1)).

(** [d.strftime(fmt)], which hands the format to the C library (glibc),
    for the directives the script uses: [%B] full month name, [%d] day
    padded to two digits, [%-d] day without padding, [%Y] the year in
    decimal without padding (999, not 0999: four digits from the year 1000
    on); every other character stands for itself. *)
Fixpoint strftime (fmt : string) (d : datetime) : string :=
  match fmt with
  | EmptyString => EmptyString
  | String c rest =>
      if Ascii.eqb c "%" then
        match rest with
        | String "B" rest' => month_name (dt_month d) +:+ strftime rest' d
        | String "d" rest' =>
            PyStr.zfill 2 (pretty (dt_day d)) +:+ strftime rest' d
        | String "-" (String "d" rest') =>
            pretty (dt_day d) +:+ strftime rest' d
        | String "Y" rest' => pretty (dt_year d) +:+ strftime rest' d
        | _ => String c (strftime rest d)
        end
      else String c (strftime rest d)
  end.

(** [str(d)], that is [d.isoformat(sep=' ')]: here the year is padded to
    four digits by Python itself; seconds resolution. *)
Definition isoformat (d : datetime) : string :=
  PyStr.zfill 4 (pretty (dt_year d)) +:+ "-"
  +:+ PyStr.zfill 2 (pretty (dt_month d)) +:+ "-"
  +:+ PyStr.zfill 2 (pretty (dt_day d)) +:+ " "
  +:+ PyStr.zfill 2 (pretty (dt_hour d)) +:+ ":"
  +:+ PyStr.zfill 2 (pretty (dt_minute d)) +:+ ":"
  +:+ PyStr.zfill 2 (pretty (dt_second d)).

(** ** Numbers

    Page sizes, percentages and font sizes are Python numbers ([int] or
    [float]).  The script only multiplies, subtracts and divides them, so
    the model is stated over any carrier with these operations; [float]
    (IEEE binary64, Python's [float]) is the instance used in examples. *)

Class Number (num : Type) : Type := {
  num_of_nat : nat → num;
  num_mul : num → num → num;
  num_sub : num → num → num;
  num_div : num → num → num;
  (** the literal [0.6] *)
  num_0_6 : num
}.

Declare Scope num_scope.
Delimit Scope num_scope with num.
Infix "*" := num_mul : num_scope.
Infix "-" := num_sub : num_scope.
Infix "/" := num_div : num_scope.

#[global] Instance float_Number : Number float := {|
  num_of_nat n := PrimFloat.of_uint63 (Uint63.of_Z (Z.of_nat n));
  num_mul := PrimFloat.mul;
  num_sub := PrimFloat.sub;
  num_div := PrimFloat.div;
  num_0_6 := 0x1.3333333333333p-1%float
|}.

(** ** Spreadsheet cells *)

Inductive cell : Type :=
  | Null                      (* NaN, None, NaT: [pd.notna] is False *)
  | DateTime (d : datetime)   (* [datetime] or [pd.Timestamp] *)
  | Str (s : string)
  | Scalar (repr : string).   (* any other scalar, with its [str()] *)

Definition notna (c : cell) : bool :=
  match c with Null => false | _ => true end.

(** [str(c)]. *)
Definition py_str (c : cell) : string :=
  match c with
  | Null => "nan"
  | DateTime d => isoformat d
  | Str s => s
  | Scalar repr => repr
  end.

(** ** Dictionaries loaded from YAML: keys in document order *)

Definition dict_mem {V} (k : string) (d : list (string * V)) : bool :=
  bool_decide (k ∈ d.*1).

(** ** Exceptions, process state and the monad of the script *)

Inductive exn : Type :=
  | KeyError (key : string)
  | LibraryError (what : string).   (* raised inside PyMuPDF or [os] *)

Inductive stop : Type :=
  | SystemExit (code : Z)
  | Raised (e : exn).

(** One printed line: its full text, or the text up to the first value
    formatted by a library (a page rectangle, an exception message). *)
Inductive line : Type :=
  | Text (s : string)
  | TextThenValue (prefix : string).

Section Model.
Context {num : Type} `{!Number num}.

(** ** Configuration (the YAML document); [None] is an absent key *)

Record FieldConfig : Type := mk_field {
  x_percent : option num;
  y_percent : option num;
  font_size : option num;
  alignment : option string;
  font : option string
}.

Record Config : Type := mk_config {
  excel_path : option string;
  template_pdf_path : option string;
  output_folder : option string;
  fields : option (list (string * FieldConfig));
  (** field name ↦ spreadsheet column; [None] is a YAML null *)
  field_mappings : option (list (string * option string));
  name_field : option string;
  test_mode : option bool
}.

(** ** What is drawn on the first page of the template *)

Inductive rl_draw : Type :=
  | DrawCentredString (x y : num) (text : string)
  | DrawString (x y : num) (text : string).

Inductive page_op : Type :=
  (** [page.insert_text((x, y), text, fontsize=.., fontfile=..)] *)
  | InsertText (x y : num) (text : string) (fontsize : num)
               (fontfile : option string)
  (** [page.show_pdf_page] of a ReportLab page drawn with a TTF font *)
  | ShowPdfPage (ttf : string) (fontsize : num) (draw : rl_draw).

(** ** The collaborators' answers *)

Inductive rl_result : Type :=
  | RlDone                   (* the temporary page was composited *)
  | RlNoPage                 (* the temporary document has no page *)
  | RlRaised.                (* some step raised *)

Record World : Type := mk_world {
  (** [datetime.now()] *)
  now : datetime;
  (** [pd.to_datetime(v).strftime(..)] went through: the parsed date;
      [None] when parsing or formatting raised *)
  to_datetime : cell → option datetime;
  (** [yaml.safe_load] of the file at a path, a mapping; [None] when
      opening or parsing raised *)
  safe_load : string → option Config;
  (** [pd.read_excel]: the rows, indexed 0, 1, ...; [None] when the
      [try] block around it raised *)
  read_excel : string → option (list (gmap string cell));
  (** [fitz.open]: width and height of the first page; [None] when the
      document cannot be opened *)
  fitz_open : string → option (num * num);
  (** [os.makedirs(.., exist_ok=True)] succeeded *)
  makedirs : string → bool;
  (** [os.path.exists], [os.path.abspath] *)
  path_exists : string → bool;
  abspath : string → string;
  (** method 1, by font file and text *)
  reportlab : string → string → rl_result;
  (** method 2: [insert_text] with [fontfile=] went through *)
  insert_text_fontfile : string → string → bool;
  (** [doc.save] succeeded *)
  doc_save : string → bool
}.

(** ** Process state: files written and lines printed

    [files] holds the documents saved with [doc.save]; the temporary file
    that the ReportLab method creates and unlinks is not part of it. *)

Record State : Type := mk_state {
  files : gmap string (list page_op);
  stdout : list line
}.

Definition M (A : Type) : Type := State → State * (stop + A).

Definition ret {A} (a : A) : M A := λ st, (st, inr a).

Definition bind {A B} (m : M A) (k : A → M B) : M B :=
  λ st, match m st with
        | (st', inr a) => k a st'
        | (st', inl e) => (st', inl e)
        end.

Definition raise {A} (e : exn) : M A := λ st, (st, inl (Raised e)).

Definition sys_exit {A} (code : Z) : M A :=
  λ st, (st, inl (SystemExit code)).

Definition print (l : line) : M unit :=
  λ st, (mk_state (files st) (stdout st ++ [l]), inr tt).

Definition write_file (path : string) (page : list page_op) : M unit :=
  λ st, (mk_state (<[path := page]> (files st)) (stdout st), inr tt).

End Model.

Arguments FieldConfig : clear implicits.
Arguments Config : clear implicits.
Arguments rl_draw : clear implicits.
Arguments page_op : clear implicits.
Arguments World : clear implicits.
Arguments State : clear implicits.

Declare Scope py_scope.
Delimit Scope py_scope with py.
Notation "x <- m ;; k" := (bind m (λ x, k))
  (at level 100, m at next level, right associativity) : py_scope.
Notation "' p <- m ;; k" := (bind m (λ p, k))
  (at level 20, p pattern, m at level 99, k at level 200) : py_scope.
Notation "m ;; k" := (bind m (λ _, k))
  (at level 100, right associativity) : py_scope.

Open Scope py_scope.

Section Script.
Context {num : Type} `{!Number num} (w : World num).

Local Abbreviation M := (M (num:=num)).

Fixpoint for_each {A} (l : list A) (body : A → M unit) : M unit :=
  match l with
  | [] => ret tt
  | a :: l' => body a ;; for_each l' body
  end.

(** [fitz.open(path)] followed by [doc[0]]: the page's width and height. *)
Definition open_first_page (path : string) : M (num * num) :=
  match fitz_open w path with
  | Some rect => ret rect
  | None => raise (LibraryError "fitz.open")
  end.

(** ** debug_pdf_info *)
Definition debug_pdf_info (pdf_path : string) : M unit :=
  print (Text ("Analyzing PDF: " +:+ pdf_path)) ;;
  _ <- open_first_page pdf_path ;;
  print (TextThenValue "Number of pages: ") ;;
  print (TextThenValue "Page dimensions: ").

(** ** add_text_overlay: one turn of the loop over [field_configs]

    [page] is what has been drawn so far; the turn returns the page after
    it.  The text width estimate of centred text is
    [len(field_value) * font_size * 0.6]. *)
Definition centred_x (page_width font_size : num) (text : string) : num :=
  ((page_width
    - num_of_nat (String.length text) * font_size * num_0_6)
   / num_of_nat 2)%num.

Definition overlay_field (page_width page_height : num)
    (field_values : gmap string string)
    (field_name : string) (config : FieldConfig num)
    (page : list (page_op num)) : M (list (page_op num)) :=
  match field_values !! field_name with
  | None =>
      print (Text ("Warning: No value provided for field '"
                   +:+ field_name +:+ "', skipping")) ;;
      ret page
  | Some field_value =>
      if negb (PyStr.truthy field_value) then ret page
      else
        let x_percent := default (num_of_nat 50) (x_percent config) in
        let y_percent := default (num_of_nat 50) (y_percent config) in
        let x := (page_width * (x_percent / num_of_nat 100))%num in
        let y := (page_height * (y_percent / num_of_nat 100))%num in
        let font_size := default (num_of_nat 12) (font_size config) in
        let alignment := default "left" (alignment config) in
        let centre := String.eqb alignment "center" in
        (* the custom font, when one is configured and on disk:
           the turn's [x], page and [success] after both methods *)
        '(x, page, success) <-
          match font config with
          | Some font_path =>
              if PyStr.truthy font_path && path_exists w font_path then
                print (Text ("Trying to create a new PDF with the custom font for '"
                             +:+ field_name +:+ "'")) ;;
                let draw :=
                  if centre then
                    DrawCentredString (page_width / num_of_nat 2)%num
                                      (page_height - y)%num field_value
                  else DrawString x (page_height - y)%num field_value in
                '(page, success) <-
                  match reportlab w font_path field_value with
                  | RlDone =>
                      print (Text ("Added text for field '" +:+ field_name
                                   +:+ "' with custom font using ReportLab")) ;;
                      ret ((page ++ [ShowPdfPage font_path font_size draw])%list,
                           true)
                  | RlNoPage => ret (page, false)
                  | RlRaised =>
                      print (TextThenValue "ReportLab method failed: ") ;;
                      ret (page, false)
                  end ;;
                if success then ret (x, page, true)
                else
                  print (Text ("Trying direct insert_text with fontfile for '"
                               +:+ field_name +:+ "'")) ;;
                  let x := if centre
                           then centred_x page_width font_size field_value
                           else x in
                  if insert_text_fontfile w font_path field_value then
                    print (Text ("Added text for field '" +:+ field_name
                                 +:+ "' with direct fontfile method")) ;;
                    ret (x,
                         (page ++ [InsertText x y field_value font_size
                                     (Some (abspath w font_path))])%list,
                         true)
                  else
                    print (TextThenValue "Direct fontfile method failed: ") ;;
                    ret (x, page, false)
              else ret (x, page, false)
          | None => ret (x, page, false)
          end ;;
        if success : bool then ret page
        else
          let x := if centre
                   then centred_x page_width font_size field_value
                   else x in
          print (Text ("Added text for field '" +:+ field_name
                       +:+ "' with default font")) ;;
          ret (page ++ [InsertText x y field_value font_size None])%list
  end.

Fixpoint overlay_fields (page_width page_height : num)
    (field_values : gmap string string)
    (field_configs : list (string * FieldConfig num))
    (page : list (page_op num)) : M (list (page_op num)) :=
  match field_configs with
  | [] => ret page
  | (field_name, config) :: rest =>
      page <- overlay_field page_width page_height field_values
                field_name config page ;;
      overlay_fields page_width page_height field_values rest page
  end.

(** ** add_text_overlay *)
Definition add_text_overlay (input_pdf_path output_pdf_path : string)
    (field_values : gmap string string)
    (field_configs : list (string * FieldConfig num)) : M unit :=
  '(page_width, page_height) <- open_first_page input_pdf_path ;;
  print (TextThenValue "Adding text to PDF with dimensions: ") ;;
  page <- overlay_fields page_width page_height field_values
            field_configs [] ;;
  (if doc_save w output_pdf_path
   then write_file output_pdf_path page
   else raise (LibraryError "doc.save")) ;;
  print (Text ("Saved modified PDF to " +:+ output_pdf_path)).

(** ** process_certificates: the field resolver

    One turn of the loop over [field_mappings.items()] for a row. *)
Definition resolve_field (field_configs : list (string * FieldConfig num))
    (formatted_today : string) (row : gmap string cell)
    (field_values : gmap string string)
    (field_name : string) (excel_column : option string)
    : gmap string string :=
  let otherwise :=
    (* the date field falls back to today's date *)
    if String.eqb field_name "date" && dict_mem field_name field_configs
    then <[field_name := formatted_today]> field_values
    else field_values in
  match excel_column with
  | Some column =>
      if PyStr.truthy column then
        match row !! column with
        | Some value =>
            if String.eqb field_name "date" && notna value then
              match value with
              | DateTime d =>
                  <[field_name := strftime "%B %d, %Y." d]> field_values
              | _ =>
                  match to_datetime w value with
                  | Some date_value =>
                      <[field_name := strftime "%B %-d, %Y." date_value]>
                        field_values
                  | None => <[field_name := py_str value]> field_values
                  end
              end
            else
              <[field_name := if notna value then py_str value else ""]>
                field_values
        | None => otherwise
        end
      else otherwise
  | None => otherwise
  end.

Definition resolve_fields (field_configs : list (string * FieldConfig num))
    (formatted_today : string) (row : gmap string cell)
    (field_mappings : list (string * option string)) : gmap string string :=
  fold_left
    (λ field_values '(field_name, excel_column),
       resolve_field field_configs formatted_today row field_values
         field_name excel_column)
    field_mappings ∅.

(** The person's name for the file name. *)
Definition person_name_of (name_field : string)
    (field_values : gmap string string) (index : nat) : string :=
  match field_values !! name_field with
  | Some name => if PyStr.truthy name then name
                 else "person_" +:+ pretty index
  | None => "person_" +:+ pretty index
  end.

Definition safe_name_of (person_name : string) : string :=
  PyStr.map_chars (λ c, if PyStr.isalnum c then c else "_"%char) person_name.

(** [output_filename] of a row; the lookup of ['email'] raises when the
    key is missing.  [safe_name] is computed and not used. *)
Definition output_filename_of (name_field : string)
    (field_values : gmap string string) (index : nat) : exn + string :=
  let person_name := person_name_of name_field field_values index in
  let safe_name := safe_name_of person_name in
  match field_values !! "email" with
  | None => inl (KeyError "email")
  | Some email => inr (person_name +:+ "_" +:+ email +:+ ".pdf")
  end.

(** The body of the loop over [df.iterrows()]. *)
Definition process_row (config : Config num) (template_pdf_path
    output_folder : string) (field_configs : list (string * FieldConfig num))
    (formatted_today : string) (index : nat) (row : gmap string cell)
    : M unit :=
  let field_mappings := default [] (field_mappings config) in
  let field_values :=
    resolve_fields field_configs formatted_today row field_mappings in
  let name_field := default "full_name" (name_field config) in
  let person_name := person_name_of name_field field_values index in
  match output_filename_of name_field field_values index with
  | inl e => raise e
  | inr output_filename =>
      let output_path := os_path_join output_folder output_filename in
      print (Text "") ;;
      print (Text ("Processing certificate for " +:+ person_name)) ;;
      add_text_overlay template_pdf_path output_path field_values
        field_configs ;;
      print (Text ("Certificate created for " +:+ person_name))
  end.

(** [os.makedirs(output_folder, exist_ok=True)] *)
Definition os_makedirs (path : string) : M unit :=
  if makedirs w path then ret tt else raise (LibraryError "os.makedirs").

(** ** process_certificates *)
Definition process_certificates (config : Config num) : M unit :=
  let excel_path := default "refuge_names.xlsx" (excel_path config) in
  let template_pdf_path :=
    default "certificate_template.pdf" (template_pdf_path config) in
  let output_folder :=
    default "completed_certificates" (output_folder config) in
  let field_configs := default [] (fields config) in
  debug_pdf_info template_pdf_path ;;
  df <- match read_excel w excel_path with
        | Some df =>
            print (Text ("Successfully read Excel file: " +:+ excel_path)) ;;
            print (TextThenValue "Excel columns found: ") ;;
            ret df
        | None =>
            print (TextThenValue "Error reading Excel file: ") ;;
            sys_exit 1
        end ;;
  os_makedirs output_folder ;;
  let formatted_today := strftime "%B %d %Y" (now w) in
  for_each (imap pair df)
    (λ '(index, row),
       process_row config template_pdf_path output_folder field_configs
         formatted_today index row) ;;
  print (Text ("Completed processing " +:+ pretty (length df)
               +:+ " certificates.")).

(** ** process_single_test *)
Definition placeholder_values
    (field_configs : list (string * FieldConfig num)) : gmap string string :=
  fold_left (λ field_values field_name,
               <[field_name := "Test " +:+ field_name]> field_values)
    field_configs.*1 ∅.

Definition test_field_values
    (field_configs : list (string * FieldConfig num)) : gmap string string :=
  let field_values := placeholder_values field_configs in
  if dict_mem "date" field_configs
  then <["date" := strftime "%B %d, %Y" (now w)]> field_values
  else field_values.

Definition process_single_test (config : Config num) : M unit :=
  let template_pdf_path :=
    default "certificate_template.pdf" (template_pdf_path config) in
  let output_folder :=
    default "completed_certificates" (output_folder config) in
  let field_configs := default [] (fields config) in
  os_makedirs output_folder ;;
  debug_pdf_info template_pdf_path ;;
  let field_values := test_field_values field_configs in
  let output_path := os_path_join output_folder "test_certificate.pdf" in
  add_text_overlay template_pdf_path output_path field_values
    field_configs ;;
  print (Text ("Test certificate created at " +:+ output_path)) ;;
  print (Text "Review this file and adjust your YAML configuration as needed").

(** ** load_config *)
Definition load_config (config_path : string) : M (Config num) :=
  match safe_load w config_path with
  | Some config =>
      print (Text ("Loaded configuration from " +:+ config_path)) ;;
      ret config
  | None =>
      print (TextThenValue ("Error loading configuration from "
                            +:+ config_path +:+ ": ")) ;;
      sys_exit 1
  end.

(** ** main; [argv] is [sys.argv] *)
Definition main (argv : list string) : M unit :=
  let config_path := default "certificate_config.yaml" (argv !! 1) in
  config <- load_config config_path ;;
  let test_mode := default false (test_mode config) in
  (if test_mode then
     print (Text "Running in test mode with placeholder data...") ;;
     process_single_test config
   else
     print (Text "Processing certificates from Excel data...") ;;
     process_certificates config) ;;
  print (Text "") ;;
  print (Text "If the text positioning needs adjustment, modify the x_percent and y_percent values in your YAML configuration.").

End Script.

(** The status the interpreter hands to the operating system: the code of
    [sys.exit], 1 after an uncaught exception, 0 otherwise. *)
Definition exit_status {A} (r : stop + A) : Z :=
  match r with
  | inl (SystemExit code) => code
  | inl (Raised _) => 1
  | inr _ => 0
  end.

Definition initial {num} : State num := mk_state ∅ [].

(** ** Vocabulary of the properties *)

(** The name portion of a file name is made of alphanumeric characters and
    underscores. *)
Definition alnum_or_underscore (s : string) : bool :=
  PyStr.all_chars (λ c, PyStr.isalnum c || Ascii.eqb c "_") s.

(** The string ends with a four-digit year and a period. *)
Definition ends_with_year_and_period (s : string) : bool :=
  match rev (list_ascii_of_string s) with
  | dot :: d4 :: d3 :: d2 :: d1 :: before =>
      Ascii.eqb dot "."
      && PyStr.isdigit d1 && PyStr.isdigit d2
      && PyStr.isdigit d3 && PyStr.isdigit d4
      && match before with
         | c :: _ => negb (PyStr.isdigit c)
         | [] => true
         end
  | _ => false
  end.

(** What a run leaves behind: the files, and how it ended. *)
Definition outcome {num A} (r : State num * (stop + A))
    : gmap string (list (page_op num)) * (stop + A) :=
  (files r.1, r.2).

(** The page a run of [overlay_fields] returns, and the operations one turn
    of the loop adds to the page. *)
Definition page_of {num} (r : State num * (stop + list (page_op num)))
    : list (page_op num) :=
  match r.2 with inr page => page | inl _ => [] end.

Definition field_ops {num} `{!Number num} (w : World num)
    (page_width page_height : num) (field_values : gmap string string)
    (field_name : string) (config : FieldConfig num) : list (page_op num) :=
  page_of (overlay_field w page_width page_height field_values field_name
             config [] initial).

Definition field_lines {num} `{!Number num} (w : World num)
    (page_width page_height : num) (field_values : gmap string string)
    (field_name : string) (config : FieldConfig num) : list line :=
  stdout (overlay_field w page_width page_height field_values field_name
            config [] initial).1.

(** What the whole loop over [field_configs] draws and prints. *)
Definition fields_ops {num} `{!Number num} (w : World num)
    (page_width page_height : num) (field_values : gmap string string)
    (field_configs : list (string * FieldConfig num)) : list (page_op num) :=
  flat_map (λ '(field_name, config),
              field_ops w page_width page_height field_values field_name
                config) field_configs.

Definition fields_lines {num} `{!Number num} (w : World num)
    (page_width page_height : num) (field_values : gmap string string)
    (field_configs : list (string * FieldConfig num)) : list line :=
  flat_map (λ '(field_name, config),
              field_lines w page_width page_height field_values field_name
                config) field_configs.

(** The same world with another spreadsheet reader. *)
Definition with_read_excel {num} (w : World num)
    (r : string → option (list (gmap string cell))) : World num :=
  mk_world (now w) (to_datetime w) (safe_load w) r (fitz_open w)
    (makedirs w) (path_exists w) (abspath w) (reportlab w)
    (insert_text_fontfile w) (doc_save w).

(** A computation that goes the same way from every process state: it
    saves the same files (over the ones with the same path), prints the
    same lines and ends the same way. *)
Definition stateless {num A} (m : M (num:=num) A) : Prop :=
  ∃ written lines res,
    ∀ st, m st = (mk_state (written ∪ files st) (stdout st ++ lines), res).

(** The files after a sequence of saves, the later over the earlier. *)
Definition write_all {num} (writes : list (string * list (page_op num)))
    (fs : gmap string (list (page_op num)))
    : gmap string (list (page_op num)) :=
  fold_left (λ fs '(path, page), <[path := page]> fs) writes fs.

(** The resolved field set of a row, its output path and its page, as
    [process_certificates] computes them from the configuration. *)
Definition row_field_values {num} `{!Number num} (w : World num)
    (config : Config num) (row : gmap string cell) : gmap string string :=
  resolve_fields w (default [] (fields config))
    (strftime "%B %d %Y" (now w)) row (default [] (field_mappings config)).

Definition row_output_path {num} `{!Number num} (w : World num)
    (config : Config num) (index : nat) (row : gmap string cell)
    : exn + string :=
  match output_filename_of (default "full_name" (name_field config))
          (row_field_values w config row) index with
  | inl e => inl e
  | inr output_filename =>
      inr (os_path_join
             (default "completed_certificates" (output_folder config))
             output_filename)
  end.

(** The loop of [process_certificates] over the rows of a sheet. *)
Definition process_rows {num} `{!Number num} (w : World num)
    (config : Config num) (df : list (nat * gmap string cell)) : M unit :=
  for_each df
    (λ '(index, row),
       process_row w config
         (default "certificate_template.pdf" (template_pdf_path config))
         (default "completed_certificates" (output_folder config))
         (default [] (fields config)) (strftime "%B %d %Y" (now w))
         index row).

(** What a row saves: its output path and its page, on a template of the
    given size; nothing when the row has no output path. *)
Definition row_write {num} `{!Number num} (w : World num)
    (config : Config num) (page_width page_height : num)
    (indexed_row : nat * gmap string cell)
    : option (string * list (page_op num)) :=
  match row_output_path w config indexed_row.1 indexed_row.2 with
  | inr path =>
      Some (path,
            fields_ops w page_width page_height
              (row_field_values w config indexed_row.2)
              (default [] (fields config)))
  | inl _ => None
  end.

(** A field configuration with another alignment, another font. *)
Definition with_alignment {num} (a : option string)
    (config : FieldConfig num) : FieldConfig num :=
  mk_field (x_percent config) (y_percent config) (font_size config) a
    (font config).

Definition with_font {num} (f : option string)
    (config : FieldConfig num) : FieldConfig num :=
  mk_field (x_percent config) (y_percent config) (font_size config)
    (alignment config) f.

(** ** A sample run: a US-letter template and three recipients *)

Module Sample.

Definition name_layout : FieldConfig float :=
  mk_field (Some 50%float) (Some 40%float) (Some 24%float)
    (Some "center") None.

Definition date_layout : FieldConfig float :=
  mk_field None (Some 80%float) None None None.

Definition config : Config float :=
  mk_config (Some "names.xlsx") (Some "template.pdf") (Some "out")
    (Some [("full_name", name_layout); ("date", date_layout)])
    (Some [("full_name", Some "Name"); ("email", Some "Email");
           ("date", Some "Date")])
    None None.

Definition test_config : Config float :=
  mk_config None (Some "template.pdf") (Some "out")
    (Some [("full_name", mk_field (Some 50%float) (Some 50%float)
                           None None None)])
    None None (Some true).

(** The same, with the email mapped to a column the sheet does not have. *)
Definition config_no_email : Config float :=
  mk_config (Some "names.xlsx") (Some "template.pdf") (Some "out")
    (Some [("full_name", name_layout); ("date", date_layout)])
    (Some [("full_name", Some "Name"); ("email", Some "E-mail")])
    None None.

(** The same, with a spreadsheet that cannot be read. *)
Definition config_no_sheet : Config float :=
  mk_config (Some "missing.xlsx") (Some "template.pdf") (Some "out")
    (Some [("full_name", name_layout); ("date", date_layout)])
    (Some [("full_name", Some "Name"); ("email", Some "Email")])
    None None.

Definition rows : list (gmap string cell) :=
  [ {[ "Name" := Str "Jane Doe"; "Email" := Str "jane@example.org";
       "Date" := DateTime (mk_datetime 2024 3 5 0 0 0) ]};
    {[ "Name" := Null; "Email" := Str "sam@example.org";
       "Date" := Null ]};
    {[ "Name" := Str "Lee"; "Email" := Str "lee@example.org";
       "Date" := Str "to be announced" ]} ].

(** The date parser's answers on the cells of the sample. *)
Definition parse (c : cell) : option datetime :=
  match c with
  | Str "2024-03-05" => Some (mk_datetime 2024 3 5 0 0 0)
  | _ => None
  end.

Definition world : World float :=
  mk_world (mk_datetime 2026 11 4 9 30 0) parse
    (λ path, if String.eqb path "test.yaml" then Some test_config
             else if String.eqb path "broken.yaml" then None
             else if String.eqb path "no_email.yaml"
                  then Some config_no_email
             else if String.eqb path "no_sheet.yaml"
                  then Some config_no_sheet
             else Some config)
    (λ path, if String.eqb path "names.xlsx" then Some rows else None)
    (λ path, if String.eqb path "template.pdf"
             then Some (612%float, 792%float) else None)
    (λ _, true) (λ _, false) (λ path, path)
    (λ _ _, RlRaised) (λ _ _, false) (λ _, true).

Definition jane : gmap string cell := default ∅ (rows !! 0%nat).
Definition sam : gmap string cell := default ∅ (rows !! 1%nat).
Definition lee : gmap string cell := default ∅ (rows !! 2%nat).

Definition layouts : list (string * FieldConfig float) :=
  default [] (fields config).

Definition mappings : list (string * option string) :=
  default [] (field_mappings config).

(** [formatted_today] of the sample run. *)
Definition today : string := strftime "%B %d %Y" (now world).

(** A title in a custom font that is on disk, and a world in which the
    two custom-font methods answer as given. *)
Definition title_layout : FieldConfig float :=
  mk_field (Some 25%float) (Some 50%float) (Some 10%float) (Some "center")
    (Some "fonts/Title.ttf").

(** The sample world, with a disk that refuses one path. *)
Definition disk_world (refused : string) : World float :=
  mk_world (now world) parse (safe_load world) (read_excel world)
    (fitz_open world) (makedirs world) (path_exists world) (abspath world)
    (reportlab world) (insert_text_fontfile world)
    (λ path, negb (String.eqb path refused)).

(** The sample world, with a template that cannot be opened. *)
Definition no_template_world : World float :=
  mk_world (now world) parse (safe_load world) (read_excel world)
    (λ _, None) (makedirs world) (path_exists world) (abspath world)
    (reportlab world) (insert_text_fontfile world) (doc_save world).

(** The sample world, with an empty sheet. *)
Definition empty_sheet_world : World float :=
  mk_world (now world) parse (safe_load world) (λ _, Some [])
    (fitz_open world) (makedirs world) (path_exists world) (abspath world)
    (reportlab world) (insert_text_fontfile world) (doc_save world).

(** More recipients: one whose row has no date column, one dated today,
    one whose name is an absolute path, and a second row for the first
    recipient, with another date. *)
Definition undated : gmap string cell :=
  {[ "Name" := Str "Ann"; "Email" := Str "ann@example.org" ]}.

Definition dated_today : gmap string cell :=
  {[ "Name" := Str "Ann"; "Email" := Str "ann@example.org";
     "Date" := DateTime (now world) ]}.

Definition absolute : gmap string cell :=
  {[ "Name" := Str "/tmp/x"; "Email" := Str "x@example.org";
     "Date" := Null ]}.

Definition jane_again : gmap string cell :=
  {[ "Name" := Str "Jane Doe"; "Email" := Str "jane@example.org";
     "Date" := DateTime (mk_datetime 2025 1 15 0 0 0) ]}.

(** The sample world, with a sheet that holds the first recipient twice. *)
Definition twin_world : World float :=
  mk_world (now world) parse (safe_load world)
    (λ _, Some [jane; jane_again])
    (fitz_open world) (makedirs world) (path_exists world) (abspath world)
    (reportlab world) (insert_text_fontfile world) (doc_save world).

Definition font_world (method1 : rl_result) (method2 : bool) : World float :=
  mk_world (now world) parse (safe_load world) (read_excel world)
    (fitz_open world) (makedirs world) (λ _, true)
    (λ path, "/srv/" +:+ path) (λ _ _, method1) (λ _ _, method2)
    (doc_save world).

End Sample.

(** * Properties *)

Example strftime_present :
  strftime "%B %d, %Y." (mk_datetime 2024 3 5 0 0 0) = "March 05, 2024.".
Proof. reflexivity. Qed.

Example strftime_parsed :
  strftime "%B %-d, %Y." (mk_datetime 2024 3 5 0 0 0) = "March 5, 2024.".
Proof. reflexivity. Qed.

Example strftime_today :
  strftime "%B %d %Y" (mk_datetime 2026 11 4 9 30 0) = "November 04 2026".
Proof. reflexivity. Qed.

Example strftime_year_999 :
  strftime "%B %d, %Y." (mk_datetime 999 3 5 0 0 0) = "March 05, 999."
  ∧ ends_with_year_and_period "March 05, 999." = false.
Proof. split; reflexivity. Qed.

Example py_str_date :
  py_str (DateTime (mk_datetime 2026 11 4 9 30 0)) = "2026-11-04 09:30:00"
  ∧ py_str (DateTime (mk_datetime 999 3 5 0 0 0)) = "0999-03-05 00:00:00".
Proof. split; reflexivity. Qed.

Example isalnum_latin1 :
  PyStr.isalnum (ascii_of_nat 233) = true      (* U+00E9 *)
  ∧ PyStr.isalnum (ascii_of_nat 215) = false   (* U+00D7 *)
  ∧ safe_name_of (String "J" (String "o" (String "s"
                    (String (ascii_of_nat 233) (String " " "D")))))
    = String "J" (String "o" (String "s"
        (String (ascii_of_nat 233) (String "_" "D")))).
Proof. repeat split; reflexivity. Qed.

Example os_path_join_plain :
  os_path_join "completed_certificates" "test_certificate.pdf"
  = "completed_certificates/test_certificate.pdf".
Proof. reflexivity. Qed.

(** Running the monad's primitives. *)
Ltac run :=
  repeat (progress (cbn [bind ret print raise sys_exit write_file
                         files stdout fst snd]
                    || unfold bind, ret, print, raise, sys_exit, write_file)).

Section Renderer.
Context {num : Type} `{!Number num} (w : World num).
Implicit Types (st : State num) (page : list (page_op num)).
Implicit Types (field_values : gmap string string).
Implicit Types (config : FieldConfig num).

(** A turn of the loop never raises, leaves the files alone, and what it
    prints and draws does not depend on what came before. *)
Lemma overlay_field_run pw ph field_values field_name config page st :
  overlay_field w pw ph field_values field_name config page st
  = (mk_state (files st)
       (stdout st ++ field_lines w pw ph field_values field_name config),
     inr (page ++ field_ops w pw ph field_values field_name config)).
Proof.
  unfold field_lines, field_ops, page_of, overlay_field.
  destruct st as [fs out].
  destruct (field_values !! field_name) as [v|]; [|run; by rewrite app_nil_r].
  destruct (negb (PyStr.truthy v)); [run; by rewrite !app_nil_r|].
  destruct (font config) as [fp|].
  - destruct (PyStr.truthy fp && path_exists w fp).
    + destruct (reportlab w fp v); destruct (insert_text_fontfile w fp v);
        run; cbn; by rewrite <- ?app_assoc, ?app_nil_r.
    + run; cbn; by rewrite <- ?app_assoc, ?app_nil_r.
  - run; cbn; by rewrite <- ?app_assoc, ?app_nil_r.
Qed.

Lemma overlay_fields_run pw ph field_values field_configs page st :
  overlay_fields w pw ph field_values field_configs page st
  = (mk_state (files st)
       (stdout st ++ fields_lines w pw ph field_values field_configs),
     inr (page ++ fields_ops w pw ph field_values field_configs)).
Proof.
  revert page st.
  induction field_configs as [|[field_name config] rest IH]; intros page st.
  - destruct st; cbn. by rewrite !app_nil_r.
  - cbn [overlay_fields]. unfold bind at 1.
    rewrite overlay_field_run, IH. cbn. by rewrite <- !app_assoc.
Qed.

Lemma field_ops_absent pw ph field_values field_name config :
  field_values !! field_name = None →
  field_ops w pw ph field_values field_name config = []
  ∧ field_lines w pw ph field_values field_name config
    = [Text ("Warning: No value provided for field '"
             +:+ field_name +:+ "', skipping")].
Proof.
  intros Hno. unfold field_ops, field_lines, page_of, overlay_field.
  by rewrite Hno.
Qed.

Lemma field_ops_empty pw ph field_values field_name config :
  field_values !! field_name = Some "" →
  field_ops w pw ph field_values field_name config = []
  ∧ field_lines w pw ph field_values field_name config = [].
Proof.
  intros Hno. unfold field_ops, field_lines, page_of, overlay_field.
  by rewrite Hno.
Qed.

(** A field with a non-empty value is drawn exactly once. *)
Lemma field_ops_drawn pw ph field_values field_name config v :
  field_values !! field_name = Some v → v ≠ "" →
  length (field_ops w pw ph field_values field_name config) = 1.
Proof.
  intros Hv Hne. unfold field_ops, page_of, overlay_field. rewrite Hv.
  destruct v as [|c v]; [done|]. cbn [PyStr.truthy negb].
  destruct (font config) as [fp|]; [|done].
  destruct (PyStr.truthy fp && path_exists w fp); [|done].
  by destruct (reportlab w fp (String c v));
    destruct (insert_text_fontfile w fp (String c v)).
Qed.

Lemma field_ops_value pw ph field_values field_name config op :
  op ∈ field_ops w pw ph field_values field_name config →
  ∃ v, field_values !! field_name = Some v ∧ v ≠ "".
Proof.
  destruct (field_values !! field_name) as [v|] eqn:Hv.
  - destruct v as [|c v]; [|by eauto].
    destruct (field_ops_empty pw ph _ _ config Hv) as [-> _].
    by intros ?%elem_of_nil.
  - destruct (field_ops_absent pw ph _ _ config Hv) as [-> _].
    by intros ?%elem_of_nil.
Qed.

(** C8: the renderer draws only the configured fields that have a
    non-empty resolved value.  The loop over the field configuration always
    returns a page, it never raises; a configured field without a value
    draws nothing and prints the warning; a field whose value is the empty
    string draws nothing and prints nothing; every operation on the page
    comes from a configured field with a non-empty value, and every such
    field is drawn. *)
Theorem C8_renderer_skips_missing_and_empty
    pw ph field_values field_configs page st :
  overlay_fields w pw ph field_values field_configs page st
  = (mk_state (files st)
       (stdout st ++ fields_lines w pw ph field_values field_configs),
     inr (page ++ fields_ops w pw ph field_values field_configs))
  ∧ (∀ field_name config,
       field_values !! field_name = None →
       field_ops w pw ph field_values field_name config = []
       ∧ field_lines w pw ph field_values field_name config
         = [Text ("Warning: No value provided for field '"
                  +:+ field_name +:+ "', skipping")])
  ∧ (∀ field_name config,
       field_values !! field_name = Some "" →
       field_ops w pw ph field_values field_name config = []
       ∧ field_lines w pw ph field_values field_name config = [])
  ∧ (∀ op,
       op ∈ fields_ops w pw ph field_values field_configs →
       ∃ field_name config v,
         (field_name, config) ∈ field_configs
         ∧ field_values !! field_name = Some v ∧ v ≠ ""
         ∧ op ∈ field_ops w pw ph field_values field_name config)
  ∧ (∀ field_name config v,
       (field_name, config) ∈ field_configs →
       field_values !! field_name = Some v → v ≠ "" →
       ∃ op, field_ops w pw ph field_values field_name config = [op]
             ∧ op ∈ fields_ops w pw ph field_values field_configs).
Proof.
  split; [apply overlay_fields_run|].
  split; [intros; by apply field_ops_absent|].
  split; [intros; by apply field_ops_empty|].
  split.
  - intros op Hop. unfold fields_ops in Hop.
    apply list_elem_of_In, in_flat_map in Hop as [[field_name config] [Hin Hop]].
    apply list_elem_of_In in Hin, Hop.
    destruct (field_ops_value _ _ _ _ _ _ Hop) as (v & Hv & Hne).
    by exists field_name, config, v.
  - intros field_name config v Hin Hv Hne.
    pose proof (field_ops_drawn pw ph _ _ config _ Hv Hne) as Hlen.
    destruct (field_ops w pw ph field_values field_name config)
      as [|op [|? ?]] eqn:Hops; try done.
    exists op. split; [done|].
    unfold fields_ops. apply list_elem_of_In, in_flat_map.
    exists (field_name, config). split; [by apply list_elem_of_In|].
    rewrite Hops. by left.
Qed.

(** C6: a field drawn with the built-in font (no custom font configured,
    the font file not on disk, or both custom-font methods failed) and
    centred alignment is inserted at the horizontal position
    [(page_width - len(text) * font_size * 0.6) / 2]. *)
Theorem C6_centred_default_font_position
    pw ph field_values field_name config v page st :
  field_values !! field_name = Some v → v ≠ "" →
  alignment config = Some "center" →
  (font config = None
   ∨ (∃ fp, font config = Some fp
            ∧ PyStr.truthy fp && path_exists w fp = false)
   ∨ (∃ fp, font config = Some fp
            ∧ reportlab w fp v ≠ RlDone
            ∧ insert_text_fontfile w fp v = false)) →
  let font_size := default (num_of_nat 12) (font_size config) in
  let y := (ph * (default (num_of_nat 50) (y_percent config)
                  / num_of_nat 100))%num in
  (overlay_field w pw ph field_values field_name config page st).2
  = inr (page ++ [InsertText
                    ((pw - num_of_nat (String.length v) * font_size
                           * num_0_6) / num_of_nat 2)%num
                    y v font_size None]).
Proof.
  intros Hv Hne Hal Hfont. unfold overlay_field. rewrite Hv, Hal.
  destruct v as [|c v]; [done|]. cbn [PyStr.truthy negb default].
  change ("center" =? "center")%string with true.
  destruct Hfont as [->|[(fp & -> & ->)|(fp & -> & Hrl & Hins)]]; [done..|].
  destruct (PyStr.truthy fp && path_exists w fp); [|done].
  unfold bind at 1. unfold bind at 1. cbn [print bind].
  rewrite Hins. by destruct (reportlab w fp (String c v)).
Qed.

(** C7: the position of a field is computed from the first page of the
    template as [x = page_width * (x_percent / 100)] and
    [y = page_height * (y_percent / 100)], each percentage being 50 when
    the field's configuration has none.  Every drawing operation of the
    field is placed at that [y] (flipped for the ReportLab page) and, when
    the text is not centred, at that [x]. *)
Theorem C7_overlay_position pw ph field_values field_name config op :
  let x := (pw * (default (num_of_nat 50) (x_percent config)
                  / num_of_nat 100))%num in
  let y := (ph * (default (num_of_nat 50) (y_percent config)
                  / num_of_nat 100))%num in
  let font_size := default (num_of_nat 12) (font_size config) in
  let centre := String.eqb (default "left" (alignment config)) "center" in
  op ∈ field_ops w pw ph field_values field_name config →
  ∃ v, field_values !! field_name = Some v
    ∧ match op with
      | InsertText x' y' text _ _ =>
          text = v ∧ y' = y
          ∧ x' = if centre then centred_x pw font_size v else x
      | ShowPdfPage _ _ (DrawString x' y' text) =>
          text = v ∧ y' = (ph - y)%num ∧ x' = x ∧ centre = false
      | ShowPdfPage _ _ (DrawCentredString x' y' text) =>
          text = v ∧ y' = (ph - y)%num
          ∧ x' = (pw / num_of_nat 2)%num ∧ centre = true
      end.
Proof.
  intros x y font_size centre. subst x y font_size centre.
  unfold field_ops, page_of, overlay_field.
  destruct (field_values !! field_name) as [v|]; [|by intros ?%elem_of_nil].
  destruct v as [|c v]; [by intros ?%elem_of_nil|].
  cbn [PyStr.truthy negb]. intros Hop. exists (String c v). split; [done|].
  revert Hop.
  destruct (default "left" (alignment config) =? "center")%string;
    (destruct (font config) as [fp|];
     [destruct (PyStr.truthy fp && path_exists w fp);
      [destruct (reportlab w fp (String c v));
       destruct (insert_text_fontfile w fp (String c v))|]|]);
    cbn; by intros ->%list_elem_of_singleton.
Qed.

End Renderer.

(** ** Dates as text *)

Lemma pretty_N_char_isdigit x : PyStr.isdigit (pretty_N_char x) = true.
Proof. unfold pretty_N_char. by repeat case_match. Qed.

(** The decimal text of a year from 1000 to 9999 is four digits. *)
Lemma pretty_year_digits (y : N) :
  (1000 ≤ y ≤ 9999)%N →
  ∃ a b c d,
    pretty y = String a (String b (String c (String d "")))
    ∧ PyStr.isdigit a = true ∧ PyStr.isdigit b = true
    ∧ PyStr.isdigit c = true ∧ PyStr.isdigit d = true.
Proof.
  intros [Hlo Hhi]. unfold pretty, pretty_N.
  assert (0 < y)%N as Hy0 by lia.
  assert (0 < y / 10)%N as Hy1.
  { apply N.div_str_pos. lia. }
  assert (0 < y / 10 / 10)%N as Hy2.
  { rewrite N.Div0.div_div. apply N.div_str_pos. lia. }
  assert (0 < y / 10 / 10 / 10)%N as Hy3.
  { rewrite !N.Div0.div_div. apply N.div_str_pos. lia. }
  destruct (decide (y = 0)%N) as [->|_]; [lia|].
  rewrite !pretty_N_go_step by done.
  replace (y / 10 / 10 / 10 / 10)%N with 0%N.
  2:{ symmetry. rewrite !N.Div0.div_div. apply N.div_small. lia. }
  rewrite pretty_N_go_0. eexists _, _, _, _.
  split; [reflexivity|]. by rewrite !pretty_N_char_isdigit.
Qed.

Lemma string_app_assoc (s1 s2 s3 : string) :
  s1 +:+ s2 +:+ s3 = (s1 +:+ s2) +:+ s3.
Proof.
  induction s1 as [|c s1 IH]; [done|].
  change (String c (s1 +:+ s2 +:+ s3) = String c ((s1 +:+ s2) +:+ s3)).
  by rewrite IH.
Qed.

Lemma list_ascii_of_string_app (s1 s2 : string) :
  list_ascii_of_string (s1 +:+ s2)
  = list_ascii_of_string s1 ++ list_ascii_of_string s2.
Proof. induction s1 as [|c s1 IH]; simpl; [done | by f_equal]. Qed.

(** A text that ends with a separator that is not a digit, four digits and
    a period ends with a year and a period. *)
Lemma ends_with_year_and_period_app (pre : string) (sep a b c d : ascii) :
  PyStr.isdigit sep = false →
  PyStr.isdigit a = true → PyStr.isdigit b = true →
  PyStr.isdigit c = true → PyStr.isdigit d = true →
  ends_with_year_and_period
    (pre +:+ String sep (String a (String b (String c (String d ".")))))
  = true.
Proof.
  intros Hsep Ha Hb Hc Hd. unfold ends_with_year_and_period.
  rewrite list_ascii_of_string_app, rev_app_distr. cbn.
  by rewrite Ha, Hb, Hc, Hd, Hsep.
Qed.

Lemma strftime_present_ends (d : datetime) :
  (1000 ≤ dt_year d ≤ 9999)%N →
  ends_with_year_and_period (strftime "%B %d, %Y." d) = true.
Proof.
  intros Hd.
  destruct (pretty_year_digits (dt_year d) Hd)
    as (a & b & c & e & Hy & Ha & Hb & Hc & He).
  change (strftime "%B %d, %Y." d)
    with (month_name (dt_month d) +:+ " "
          +:+ PyStr.zfill 2 (pretty (dt_day d))
          +:+ "," +:+ String " " (pretty (dt_year d) +:+ ".")).
  rewrite Hy, !string_app_assoc.
  by apply ends_with_year_and_period_app.
Qed.

Lemma strftime_parsed_ends (d : datetime) :
  (1000 ≤ dt_year d ≤ 9999)%N →
  ends_with_year_and_period (strftime "%B %-d, %Y." d) = true.
Proof.
  intros Hd.
  destruct (pretty_year_digits (dt_year d) Hd)
    as (a & b & c & e & Hy & Ha & Hb & Hc & He).
  change (strftime "%B %-d, %Y." d)
    with (month_name (dt_month d) +:+ " " +:+ pretty (dt_day d)
          +:+ "," +:+ String " " (pretty (dt_year d) +:+ ".")).
  rewrite Hy, !string_app_assoc.
  by apply ends_with_year_and_period_app.
Qed.

(** ** The field resolver *)

Section Resolver.
Context {num : Type} `{!Number num} (w : World num).
Implicit Types (row : gmap string cell) (field_values : gmap string string).
Implicit Types (field_configs : list (string * FieldConfig num)).
Implicit Types (field_mappings : list (string * option string)).

(** A turn of the loop writes at most the key of its own field. *)
Lemma resolve_field_other field_configs today row field_values
    field_name excel_column k :
  k ≠ field_name →
  resolve_field w field_configs today row field_values field_name
    excel_column !! k = field_values !! k.
Proof.
  intros Hk. unfold resolve_field.
  repeat case_match; by rewrite ?lookup_insert_ne.
Qed.

(** What a turn leaves under its own key depends on the earlier turns
    only through that key. *)
Lemma resolve_field_same field_configs today row field_values field_values'
    field_name excel_column :
  field_values !! field_name = field_values' !! field_name →
  resolve_field w field_configs today row field_values field_name
    excel_column !! field_name
  = resolve_field w field_configs today row field_values' field_name
      excel_column !! field_name.
Proof.
  intros Hk. unfold resolve_field.
  repeat case_match; by rewrite ?lookup_insert_eq.
Qed.

Lemma resolve_fold_other field_configs today row field_mappings
    field_values k :
  k ∉ field_mappings.*1 →
  fold_left
    (λ field_values '(field_name, excel_column),
       resolve_field w field_configs today row field_values
         field_name excel_column)
    field_mappings field_values !! k
  = field_values !! k.
Proof.
  revert field_values.
  induction field_mappings as [|[f c] rest IH]; intros field_values Hk; [done|].
  cbn in *. apply not_elem_of_cons in Hk as [Hne Hk].
  rewrite IH by done. by apply resolve_field_other.
Qed.

Lemma resolve_fold_lookup field_configs today row field_mappings
    field_values field_name excel_column :
  NoDup field_mappings.*1 →
  (field_name, excel_column) ∈ field_mappings →
  field_values !! field_name = None →
  fold_left
    (λ field_values '(field_name, excel_column),
       resolve_field w field_configs today row field_values
         field_name excel_column)
    field_mappings field_values !! field_name
  = resolve_field w field_configs today row ∅ field_name excel_column
      !! field_name.
Proof.
  revert field_values.
  induction field_mappings as [|[f c] rest IH];
    intros field_values Hnd Hin Hfv; [by apply elem_of_nil in Hin|].
  cbn in *. apply NoDup_cons in Hnd as [Hnotin Hnd].
  apply elem_of_cons in Hin as [[= <- <-]|Hin].
  - rewrite resolve_fold_other by done.
    apply resolve_field_same. by rewrite Hfv, lookup_empty.
  - assert (field_name ≠ f) as Hne.
    { intros ->. apply Hnotin, list_elem_of_fmap. by exists (f, excel_column). }
    apply IH; [done..|]. by rewrite resolve_field_other.
Qed.

(** The mappings are a dictionary: each field has one entry, and the
    resolved value of a field is what the turn of its entry computes. *)
Lemma resolve_fields_lookup field_configs today row field_mappings
    field_name excel_column :
  NoDup field_mappings.*1 →
  (field_name, excel_column) ∈ field_mappings →
  resolve_fields w field_configs today row field_mappings !! field_name
  = resolve_field w field_configs today row ∅ field_name excel_column
      !! field_name.
Proof. intros. by apply resolve_fold_lookup. Qed.

(** A field without an entry in the mappings is not resolved. *)
Lemma resolve_fields_unmapped field_configs today row field_mappings k :
  k ∉ field_mappings.*1 →
  resolve_fields w field_configs today row field_mappings !! k = None.
Proof. intros. unfold resolve_fields. by rewrite resolve_fold_other. Qed.

(** The column of the date field is absent from the row (or the mapping
    names no column): today's date, when the field is configured. *)
Lemma date_column_absent field_configs today row field_mappings
    excel_column :
  NoDup field_mappings.*1 →
  ("date", excel_column) ∈ field_mappings →
  (excel_column = None ∨ excel_column = Some ""
   ∨ ∃ column, excel_column = Some column ∧ row !! column = None) →
  dict_mem "date" field_configs = true →
  resolve_fields w field_configs today row field_mappings !! "date"
  = Some today.
Proof.
  intros Hnd Hin Hcol Hcfg. rewrite (resolve_fields_lookup _ _ _ _ _ _ Hnd Hin).
  unfold resolve_field. rewrite Hcfg, String.eqb_refl. cbn [andb].
  destruct Hcol as [->|[->|(column & -> & Hrow)]];
    rewrite ?Hrow; cbn [PyStr.truthy];
    [| |destruct (PyStr.truthy column)]; by rewrite lookup_insert_eq.
Qed.

(** The cell of the date column is empty: the empty string. *)
Lemma date_cell_empty field_configs today row field_mappings column :
  NoDup field_mappings.*1 →
  ("date", Some column) ∈ field_mappings →
  column ≠ "" → row !! column = Some Null →
  resolve_fields w field_configs today row field_mappings !! "date"
  = Some "".
Proof.
  intros Hnd Hin Hcol Hrow. rewrite (resolve_fields_lookup _ _ _ _ _ _ Hnd Hin).
  unfold resolve_field. rewrite Hrow, String.eqb_refl.
  destruct column; [done|]. cbn [PyStr.truthy notna andb].
  by rewrite lookup_insert_eq.
Qed.

(** C3, as amended: when the cell of the mapped date column is a date, or
    a value the date parser accepts, the resolved date is the full month
    name, the day (two digits for a date, no padding for a parsed value), a
    comma, the year in decimal and a period, and for a year from 1000 to
    9999 it ends with a four-digit year and a period; when the parser
    rejects the cell, the resolved date is the cell's text as it is. *)
Theorem C3_present_date_is_formatted field_configs today row
    field_mappings column value :
  NoDup field_mappings.*1 →
  ("date", Some column) ∈ field_mappings →
  column ≠ "" → row !! column = Some value → notna value = true →
  let resolved :=
    resolve_fields w field_configs today row field_mappings !! "date" in
  match value with
  | DateTime d =>
      resolved
      = Some (month_name (dt_month d) +:+ " "
              +:+ PyStr.zfill 2 (pretty (dt_day d)) +:+ ", "
              +:+ pretty (dt_year d) +:+ ".")
      ∧ ((1000 ≤ dt_year d ≤ 9999)%N →
         ∃ text, resolved = Some text
                 ∧ ends_with_year_and_period text = true)
  | _ =>
      match to_datetime w value with
      | Some d =>
          resolved
          = Some (month_name (dt_month d) +:+ " "
                  +:+ pretty (dt_day d) +:+ ", "
                  +:+ pretty (dt_year d) +:+ ".")
          ∧ ((1000 ≤ dt_year d ≤ 9999)%N →
             ∃ text, resolved = Some text
                     ∧ ends_with_year_and_period text = true)
      | None => resolved = Some (py_str value)
      end
  end.
Proof.
  intros Hnd Hin Hcol Hrow Hna resolved. subst resolved.
  rewrite (resolve_fields_lookup _ _ _ _ _ _ Hnd Hin).
  unfold resolve_field. rewrite Hrow, Hna, String.eqb_refl.
  destruct column; [done|]. cbn [PyStr.truthy andb].
  destruct value as [|d|s|r]; [done|..].
  - rewrite lookup_insert_eq. split; [done|].
    intros Hd. eexists. split; [done|]. by apply strftime_present_ends.
  - destruct (to_datetime w (Str s)) as [d|]; rewrite lookup_insert_eq; [|done].
    split; [done|].
    intros Hd. eexists. split; [done|]. by apply strftime_parsed_ends.
  - destruct (to_datetime w (Scalar r)) as [d|]; rewrite lookup_insert_eq; [|done].
    split; [done|].
    intros Hd. eexists. split; [done|]. by apply strftime_parsed_ends.
Qed.

End Resolver.

(** ** The drivers *)

Section Drivers.
Context {num : Type} `{!Number num} (w : World num).
Implicit Types (st : State num) (config : Config num).
Implicit Types (row : gmap string cell) (field_values : gmap string string).
Implicit Types (field_configs : list (string * FieldConfig num)).

(** [add_text_overlay] on a template that opens: one file, when the save
    goes through. *)
Lemma add_text_overlay_run input output field_values field_configs pw ph st :
  fitz_open w input = Some (pw, ph) →
  add_text_overlay w input output field_values field_configs st
  = if doc_save w output then
      (mk_state
         (<[output := fields_ops w pw ph field_values field_configs]>
            (files st))
         (stdout st
          ++ [TextThenValue "Adding text to PDF with dimensions: "]
          ++ fields_lines w pw ph field_values field_configs
          ++ [Text ("Saved modified PDF to " +:+ output)]),
       inr tt)
    else
      (mk_state (files st)
         (stdout st
          ++ [TextThenValue "Adding text to PDF with dimensions: "]
          ++ fields_lines w pw ph field_values field_configs),
       inl (Raised (LibraryError "doc.save"))).
Proof.
  intros Hopen. unfold add_text_overlay, open_first_page. rewrite Hopen.
  unfold bind at 1. cbn [ret]. unfold bind at 1. cbn [print].
  unfold bind at 1. rewrite overlay_fields_run. unfold bind at 1.
  destruct (doc_save w output); run; by rewrite <- ?app_assoc.
Qed.

Lemma add_text_overlay_unreadable input output field_values field_configs st :
  fitz_open w input = None →
  add_text_overlay w input output field_values field_configs st
  = (st, inl (Raised (LibraryError "fitz.open"))).
Proof.
  intros Hopen. unfold add_text_overlay, open_first_page. by rewrite Hopen.
Qed.

(** The files [add_text_overlay] leaves: the ones before, and at most the
    output path. *)
Lemma add_text_overlay_files input output field_values field_configs st :
  dom (files (add_text_overlay w input output field_values field_configs
                st).1)
  ⊆ {[output]} ∪ dom (files st).
Proof.
  destruct (fitz_open w input) as [[pw ph]|] eqn:Hopen.
  - rewrite (add_text_overlay_run _ _ _ _ _ _ _ Hopen).
    destruct (doc_save w output); cbn; [|set_solver].
    rewrite dom_insert. set_solver.
  - rewrite add_text_overlay_unreadable by done. set_solver.
Qed.

Lemma debug_pdf_info_run pdf_path st :
  debug_pdf_info w pdf_path st
  = match fitz_open w pdf_path with
    | Some _ =>
        (mk_state (files st)
           (stdout st ++ [Text ("Analyzing PDF: " +:+ pdf_path);
                          TextThenValue "Number of pages: ";
                          TextThenValue "Page dimensions: "]),
         inr tt)
    | None =>
        (mk_state (files st)
           (stdout st ++ [Text ("Analyzing PDF: " +:+ pdf_path)]),
         inl (Raised (LibraryError "fitz.open")))
    end.
Proof.
  unfold debug_pdf_info, open_first_page.
  destruct (fitz_open w pdf_path); run; by rewrite <- ?app_assoc.
Qed.

(** A loop stops at the first turn that does not return. *)
Lemma for_each_app {A} (l1 l2 : list A) (body : A → M (num:=num) unit) st :
  for_each (l1 ++ l2) body st
  = match for_each l1 body st with
    | (st', inr _) => for_each l2 body st'
    | (st', inl e) => (st', inl e)
    end.
Proof.
  revert st. induction l1 as [|a l1 IH]; intros st; [done|].
  cbn [app for_each]. unfold bind.
  destruct (body a st) as [st' [e|[]]]; [done|]. apply IH.
Qed.

(** The rows of a spreadsheet with their index labels 0, 1, ... *)
Lemma iterrows_app (done_rows rest : list (gmap string cell)) :
  imap pair (done_rows ++ rest)
  = imap pair done_rows
    ++ imap (λ i row, (length done_rows + i, row)) rest.
Proof. by rewrite imap_app. Qed.

(** A row without a resolved email: the lookup raises before anything is
    printed or drawn for the row. *)
Lemma process_row_no_email config template output_folder field_configs
    today index row st :
  resolve_fields w field_configs today row
    (default [] (field_mappings config)) !! "email" = None →
  process_row w config template output_folder field_configs today index
    row st
  = (st, inl (Raised (KeyError "email"))).
Proof.
  intros Hno. unfold process_row, output_filename_of. by rewrite Hno.
Qed.

(** A row with a resolved email: the certificate is rendered to the path
    made of the output folder and the file name. *)
Lemma process_row_email config template output_folder field_configs today
    index row email st :
  let field_values :=
    resolve_fields w field_configs today row
      (default [] (field_mappings config)) in
  let person_name :=
    person_name_of (default "full_name" (name_field config)) field_values
      index in
  field_values !! "email" = Some email →
  process_row w config template output_folder field_configs today index
    row st
  = (print (Text "") ;;
     print (Text ("Processing certificate for " +:+ person_name)) ;;
     add_text_overlay w template
       (os_path_join output_folder
          (person_name +:+ "_" +:+ email +:+ ".pdf"))
       field_values field_configs ;;
     print (Text ("Certificate created for " +:+ person_name))) st.
Proof.
  intros field_values person_name Hemail.
  unfold process_row, output_filename_of. fold field_values.
  by rewrite Hemail.
Qed.

(** The files a row leaves when its certificate is rendered and saved. *)
Lemma process_row_files config template output_folder field_configs today
    index row email pw ph st :
  let field_values :=
    resolve_fields w field_configs today row
      (default [] (field_mappings config)) in
  let output_path :=
    os_path_join output_folder
      (person_name_of (default "full_name" (name_field config))
         field_values index +:+ "_" +:+ email +:+ ".pdf") in
  field_values !! "email" = Some email →
  fitz_open w template = Some (pw, ph) →
  doc_save w output_path = true →
  let r := process_row w config template output_folder field_configs today
             index row st in
  r.2 = inr tt
  ∧ files r.1
    = <[output_path := fields_ops w pw ph field_values field_configs]>
        (files st).
Proof.
  intros field_values output_path Hemail Hopen Hsave r.
  subst r output_path field_values.
  rewrite (process_row_email _ _ _ _ _ _ _ _ _ Hemail).
  unfold bind, print. cbn [files stdout].
  rewrite (add_text_overlay_run _ _ _ _ _ _ _ Hopen), Hsave. done.
Qed.

(** A field other than the date whose entries all name a column the row
    does not have is not resolved. *)
Lemma column_absent_unresolved field_configs today row
    (field_mappings : list (string * option string)) k :
  k ≠ "date" →
  (∀ excel_column, (k, excel_column) ∈ field_mappings →
     excel_column = None ∨ excel_column = Some ""
     ∨ ∃ column, excel_column = Some column ∧ row !! column = None) →
  resolve_fields w field_configs today row field_mappings !! k = None.
Proof.
  intros Hk. unfold resolve_fields.
  assert ((∅ : gmap string string) !! k = None) as Hfv by done.
  revert Hfv. generalize (∅ : gmap string string) as fv.
  induction field_mappings as [|[f c] rest IH]; intros fv Hfv Hcols; [done|].
  cbn [fold_left]. apply IH.
  - destruct (decide (k = f)) as [->|Hne];
      [|by rewrite resolve_field_other].
    unfold resolve_field.
    replace (f =? "date")%string with false
      by (symmetry; by apply String.eqb_neq).
    cbn [andb].
    destruct (Hcols c) as [->|[->|(column & -> & Hrow)]];
      [by left|done..|].
    rewrite Hrow. by destruct (PyStr.truthy column).
  - intros excel_column Hin. apply Hcols. by right.
Qed.

(** The run of [process_certificates] up to the loop over the rows. *)
Lemma process_certificates_run config df rect st :
  let excel := default "refuge_names.xlsx" (excel_path config) in
  let template :=
    default "certificate_template.pdf" (template_pdf_path config) in
  let output_folder :=
    default "completed_certificates" (output_folder config) in
  fitz_open w template = Some rect →
  read_excel w excel = Some df →
  makedirs w output_folder = true →
  process_certificates w config st
  = (for_each (imap pair df)
       (λ '(index, row),
          process_row w config template output_folder
            (default [] (fields config)) (strftime "%B %d %Y" (now w))
            index row) ;;
     print (Text ("Completed processing " +:+ pretty (length df)
                  +:+ " certificates.")))
      (mk_state (files st)
         (stdout st
          ++ [Text ("Analyzing PDF: " +:+ template);
              TextThenValue "Number of pages: ";
              TextThenValue "Page dimensions: ";
              Text ("Successfully read Excel file: " +:+ excel);
              TextThenValue "Excel columns found: "])).
Proof.
  intros excel template output_folder Hopen Hread Hmk.
  subst excel template output_folder.
  unfold process_certificates, os_makedirs. rewrite Hread, Hmk.
  unfold bind at 1. rewrite debug_pdf_info_run, Hopen.
  unfold bind, print, ret. cbn [files stdout]. by rewrite <- !app_assoc.
Qed.

(** C4: a row for which no email value was resolved makes the lookup of
    the email raise [KeyError]; nothing catches it: the loop over the rows
    stops there and [main] ends with that exception. *)
Theorem C4_unresolved_email_raises
    argv config df_before row df_after rect st :
  let config_path := default "certificate_config.yaml" (argv !! 1) in
  let template :=
    default "certificate_template.pdf" (template_pdf_path config) in
  let output_folder :=
    default "completed_certificates" (output_folder config) in
  let field_configs := default [] (fields config) in
  let today := strftime "%B %d %Y" (now w) in
  safe_load w config_path = Some config →
  default false (test_mode config) = false →
  fitz_open w template = Some rect →
  read_excel w (default "refuge_names.xlsx" (excel_path config))
  = Some (df_before ++ row :: df_after) →
  makedirs w output_folder = true →
  (* the rows before it are processed without an error *)
  (∀ st1, ∃ st2,
     for_each (imap pair df_before)
       (λ '(index, row),
          process_row w config template output_folder field_configs today
            index row) st1
     = (st2, inr tt)) →
  resolve_fields w field_configs today row
    (default [] (field_mappings config)) !! "email" = None →
  (∀ st1,
     process_row w config template output_folder field_configs today
       (length df_before) row st1
     = (st1, inl (Raised (KeyError "email"))))
  ∧ (main w argv st).2 = inl (Raised (KeyError "email")).
Proof.
  intros config_path template output_folder field_configs today
    Hload Htest Hopen Hread Hmk Hbefore Hemail.
  split; [intros st1; by apply process_row_no_email|].
  unfold main, load_config. fold config_path. rewrite Hload.
  unfold bind at 1. unfold bind at 1. cbn [print ret].
  unfold bind at 1. rewrite Htest. unfold bind at 1. cbn [print].
  rewrite (process_certificates_run _ _ _ _ Hopen Hread Hmk).
  unfold bind at 1. rewrite iterrows_app, for_each_app.
  fold template output_folder field_configs today.
  match goal with |- context [for_each (imap pair df_before) ?b ?s] =>
    destruct (Hbefore s) as [st2 ->] end.
  cbn [imap for_each]. unfold bind at 1.
  rewrite Nat.add_0_r, process_row_no_email by done. done.
Qed.

(** *** Test mode *)

Lemma placeholder_fold_lookup (names : list string)
    (field_values : gmap string string) f :
  f ∈ names ∨ field_values !! f = Some ("Test " +:+ f) →
  fold_left (λ field_values field_name,
               <[field_name := "Test " +:+ field_name]> field_values)
    names field_values !! f
  = Some ("Test " +:+ f).
Proof.
  revert field_values.
  induction names as [|n names IH]; intros field_values Hf.
  - destruct Hf as [Hf|Hf]; [by apply elem_of_nil in Hf|done].
  - cbn [fold_left]. apply IH.
    destruct Hf as [[->|Hf]%elem_of_cons|Hf]; [|by left|].
    + right. by rewrite lookup_insert_eq.
    + right. destruct (decide (n = f)) as [->|Hne];
        [by rewrite lookup_insert_eq|by rewrite lookup_insert_ne].
Qed.

Lemma placeholder_values_lookup field_configs f :
  f ∈ field_configs.*1 →
  placeholder_values field_configs !! f = Some ("Test " +:+ f).
Proof. intros. apply placeholder_fold_lookup. by left. Qed.

(** What [process_single_test] leaves: the files and how it ends. *)
Lemma process_single_test_outcome config st :
  let template :=
    default "certificate_template.pdf" (template_pdf_path config) in
  let output_folder :=
    default "completed_certificates" (output_folder config) in
  let field_configs := default [] (fields config) in
  let output_path := os_path_join output_folder "test_certificate.pdf" in
  outcome (process_single_test w config st)
  = if makedirs w output_folder then
      match fitz_open w template with
      | Some (pw, ph) =>
          if doc_save w output_path then
            (<[output_path :=
                 fields_ops w pw ph (test_field_values w field_configs)
                   field_configs]> (files st), inr tt)
          else (files st, inl (Raised (LibraryError "doc.save")))
      | None => (files st, inl (Raised (LibraryError "fitz.open")))
      end
    else (files st, inl (Raised (LibraryError "os.makedirs"))).
Proof.
  intros template output_folder field_configs output_path.
  subst output_path field_configs output_folder template.
  unfold process_single_test, os_makedirs.
  destruct (makedirs w _); [|done].
  unfold bind at 1. cbn [ret]. unfold bind at 1.
  rewrite debug_pdf_info_run.
  destruct (fitz_open w _) as [[pw ph]|] eqn:Hopen; [|done].
  unfold bind at 1.
  rewrite (add_text_overlay_run _ _ _ _ _ _ _ Hopen).
  by destruct (doc_save w _).
Qed.

Lemma main_test_run argv config st :
  safe_load w (default "certificate_config.yaml" (argv !! 1))
  = Some config →
  test_mode config = Some true →
  main w argv st
  = match
      process_single_test w config
        (mk_state (files st)
           (stdout st
            ++ [Text ("Loaded configuration from "
                      +:+ default "certificate_config.yaml" (argv !! 1));
                Text "Running in test mode with placeholder data..."]))
    with
    | (st', inr _) =>
        (mk_state (files st')
           (stdout st'
            ++ [Text "";
                Text "If the text positioning needs adjustment, modify the x_percent and y_percent values in your YAML configuration."]),
         inr tt)
    | (st', inl e) => (st', inl e)
    end.
Proof.
  intros Hload Htest. unfold main, load_config. rewrite Hload.
  unfold bind, print, ret. cbn [files stdout]. rewrite Htest.
  cbn [default from_option id files stdout]. rewrite <- app_assoc.
  cbn [app].
  destruct (process_single_test w config _) as [st' [e|[]]]; [done|].
  by rewrite <- app_assoc.
Qed.

Lemma main_test_outcome argv config st :
  safe_load w (default "certificate_config.yaml" (argv !! 1))
  = Some config →
  test_mode config = Some true →
  outcome (main w argv st) = outcome (process_single_test w config st).
Proof.
  intros Hload Htest. rewrite (main_test_run _ _ _ Hload Htest).
  rewrite (process_single_test_outcome config st).
  match goal with |- context [process_single_test w config ?s] =>
    pose proof (process_single_test_outcome config s) as Hs;
    destruct (process_single_test w config s) as [st' [e|[]]] end;
    cbn zeta in Hs; unfold outcome in *; cbn [fst snd files] in *;
    by rewrite Hs.
Qed.

(** The renderer and the test driver do not read the spreadsheet. *)
Lemma overlay_fields_read_excel reader pw ph field_values field_configs
    page st :
  overlay_fields (with_read_excel w reader) pw ph field_values
    field_configs page st
  = overlay_fields w pw ph field_values field_configs page st.
Proof.
  revert page st.
  induction field_configs as [|[f c] rest IH]; intros page st; [done|].
  cbn [overlay_fields]. unfold bind.
  change (overlay_field (with_read_excel w reader) pw ph field_values f c
            page st)
    with (overlay_field w pw ph field_values f c page st).
  destruct (overlay_field w pw ph field_values f c page st) as [st' [e|p]];
    [done|apply IH].
Qed.

Lemma process_single_test_read_excel reader config st :
  process_single_test (with_read_excel w reader) config st
  = process_single_test w config st.
Proof.
  unfold process_single_test, add_text_overlay.
  unfold bind.
  change (os_makedirs (with_read_excel w reader)) with (os_makedirs w).
  destruct (os_makedirs w _ st) as [st1 [e|[]]]; [done|].
  change (debug_pdf_info (with_read_excel w reader))
    with (debug_pdf_info w).
  destruct (debug_pdf_info w _ st1) as [st2 [e|[]]]; [done|].
  change (open_first_page (with_read_excel w reader))
    with (open_first_page w).
  destruct (open_first_page w _ st2) as [st3 [e|[pw ph]]]; [done|].
  destruct (print _ st3) as [st4 [e|[]]]; [done|].
  change (test_field_values (with_read_excel w reader))
    with (test_field_values w).
  by rewrite overlay_fields_read_excel.
Qed.

End Drivers.

(** ** Test mode, fatal errors and file names *)

Section Runs.
Context {num : Type} `{!Number num}.
Implicit Types (w : World num) (st : State num) (config : Config num).

Lemma outcome_inv {A} (r : State num * (stop + A)) fs res :
  outcome r = (fs, res) → files r.1 = fs ∧ r.2 = res.
Proof. unfold outcome. by intros [= -> ->]. Qed.

Lemma main_config_unreadable w argv st :
  safe_load w (default "certificate_config.yaml" (argv !! 1)) = None →
  outcome (main w argv st) = (files st, inl (SystemExit 1)).
Proof. intros Hload. unfold outcome, main, load_config. by rewrite Hload. Qed.

Lemma main_excel_unreadable w argv config st :
  safe_load w (default "certificate_config.yaml" (argv !! 1))
  = Some config →
  default false (test_mode config) = false →
  read_excel w (default "refuge_names.xlsx" (excel_path config)) = None →
  outcome (main w argv st)
  = (files st,
     match fitz_open w (default "certificate_template.pdf"
                          (template_pdf_path config)) with
     | Some _ => inl (SystemExit 1)
     | None => inl (Raised (LibraryError "fitz.open"))
     end).
Proof.
  intros Hload Htest Hread. unfold main, load_config. rewrite Hload.
  unfold bind, print, ret. cbn [files stdout]. rewrite Htest.
  unfold process_certificates, bind. rewrite debug_pdf_info_run, Hread.
  by destruct (fitz_open w _).
Qed.

(** A file directly under a folder. *)
Lemma os_path_join_folder (folder : string) :
  folder ≠ "" → PyStr.endswith folder "/" = false →
  os_path_join folder "test_certificate.pdf"
  = folder +:+ "/test_certificate.pdf".
Proof.
  intros Hne Hsep. unfold os_path_join.
  change (PyStr.startswith "test_certificate.pdf" "/") with false.
  rewrite Hsep. by destruct folder.
Qed.

(** C5: in test mode every configured field gets the placeholder
    ["Test <field name>"], the date field, when configured, then gets
    today's date; at most one file is written, at
    [os.path.join(output_folder, "test_certificate.pdf")], which is
    [<output_folder>/test_certificate.pdf] for a folder name without a
    trailing separator, and exactly that one when the folder, the template
    and the save go through; the spreadsheet reader is not consulted: the run
    is the same whatever it would answer. *)
Theorem C5_test_mode_one_certificate w argv config :
  let config_path := default "certificate_config.yaml" (argv !! 1) in
  let template :=
    default "certificate_template.pdf" (template_pdf_path config) in
  let output_folder :=
    default "completed_certificates" (output_folder config) in
  let field_configs := default [] (fields config) in
  let output_path := os_path_join output_folder "test_certificate.pdf" in
  let field_values := test_field_values w field_configs in
  let r := main w argv initial in
  safe_load w config_path = Some config →
  test_mode config = Some true →
  (∀ f, f ∈ field_configs.*1 →
        placeholder_values field_configs !! f = Some ("Test " +:+ f))
  ∧ (∀ f, f ∈ field_configs.*1 → f ≠ "date" →
          field_values !! f = Some ("Test " +:+ f))
  ∧ ("date" ∈ field_configs.*1 →
     field_values !! "date" = Some (strftime "%B %d, %Y" (now w)))
  ∧ (output_folder ≠ "" → PyStr.endswith output_folder "/" = false →
     output_path = output_folder +:+ "/test_certificate.pdf")
  ∧ dom (files r.1) ⊆ {[output_path]}
  ∧ (∀ pw ph,
       makedirs w output_folder = true →
       fitz_open w template = Some (pw, ph) →
       doc_save w output_path = true →
       r.2 = inr tt
       ∧ files r.1
         = {[output_path :=
               fields_ops w pw ph field_values field_configs]})
  ∧ (∀ reader, main (with_read_excel w reader) argv initial = r).
Proof.
  intros config_path template output_folder field_configs output_path
    field_values r Hload Htest.
  pose proof (main_test_outcome w argv config initial Hload Htest) as Hout.
  rewrite process_single_test_outcome in Hout.
  fold template output_folder field_configs output_path field_values r
    in Hout.
  split; [intros f Hf; by apply placeholder_values_lookup|].
  split.
  { intros f Hf Hne. subst field_values. unfold test_field_values.
    destruct (dict_mem "date" field_configs);
      rewrite ?lookup_insert_ne by done;
      by apply placeholder_values_lookup. }
  split.
  { intros Hdate. subst field_values. unfold test_field_values, dict_mem.
    rewrite bool_decide_eq_true_2 by done. by rewrite lookup_insert_eq. }
  split; [by apply os_path_join_folder|].
  split.
  { assert (files r.1 = (outcome r).1) as -> by done. rewrite Hout.
    destruct (makedirs w output_folder);
      [destruct (fitz_open w template) as [[pw ph]|];
       [destruct (doc_save w output_path)|]|];
      cbn [fst files initial];
      rewrite ?dom_insert_L, ?dom_empty_L, ?(right_id_L ∅ (∪));
      (done || apply empty_subseteq). }
  split.
  { intros pw ph Hmk Hopen Hsave. rewrite Hmk, Hopen, Hsave in Hout.
    apply outcome_inv in Hout as [-> ->]. split; [done|].
    cbn [files initial]. by rewrite insert_empty. }
  intros reader. subst r.
  rewrite (main_test_run (with_read_excel w reader) argv config initial
             Hload Htest).
  rewrite (main_test_run w argv config initial Hload Htest).
  by rewrite process_single_test_read_excel.
Qed.

(** C9: when the configuration document cannot be loaded, the run ends
    with [sys.exit(1)]; in normal mode, when the spreadsheet cannot be
    read, the process ends with status 1, by [sys.exit(1)] once the
    template has been opened for the diagnostics; no file is written in
    either case. *)
Theorem C9_fatal_errors_exit_1 w argv st :
  let config_path := default "certificate_config.yaml" (argv !! 1) in
  let r := main w argv st in
  (safe_load w config_path = None →
   r.2 = inl (SystemExit 1) ∧ exit_status r.2 = 1%Z
   ∧ files r.1 = files st)
  ∧ (∀ config,
       safe_load w config_path = Some config →
       default false (test_mode config) = false →
       read_excel w (default "refuge_names.xlsx" (excel_path config))
       = None →
       exit_status r.2 = 1%Z ∧ files r.1 = files st
       ∧ (is_Some (fitz_open w (default "certificate_template.pdf"
                                  (template_pdf_path config))) →
          r.2 = inl (SystemExit 1))).
Proof.
  intros config_path r. subst r. split.
  - intros Hload.
    destruct (outcome_inv _ _ _ (main_config_unreadable w argv st Hload))
      as [Hfiles ->].
    by rewrite Hfiles.
  - intros config Hload Htest Hread.
    destruct (outcome_inv _ _ _
                (main_excel_unreadable w argv config st Hload Htest Hread))
      as [Hfiles ->].
    rewrite Hfiles. by destruct (fitz_open w _).
Qed.

(** C10: when the name field (['full_name'] unless configured) is not
    resolved for a row, or resolves to the empty string, the file name of
    the row is ["person_"], the row's index, an underscore, the email and
    [".pdf"], and the certificate is saved under that name in the output
    folder. *)
Theorem C10_fallback_person_name
    w config template output_folder index row email st :
  let field_configs := default [] (fields config) in
  let today := strftime "%B %d %Y" (now w) in
  let field_values :=
    resolve_fields w field_configs today row
      (default [] (field_mappings config)) in
  let name_field := default "full_name" (name_field config) in
  let output_filename :=
    "person_" +:+ pretty index +:+ "_" +:+ email +:+ ".pdf" in
  (field_values !! name_field = None
   ∨ field_values !! name_field = Some "") →
  field_values !! "email" = Some email →
  person_name_of name_field field_values index = "person_" +:+ pretty index
  ∧ output_filename_of name_field field_values index = inr output_filename
  ∧ (∀ pw ph,
       fitz_open w template = Some (pw, ph) →
       doc_save w (os_path_join output_folder output_filename) = true →
       files (process_row w config template output_folder field_configs
                today index row st).1
       = <[os_path_join output_folder output_filename :=
             fields_ops w pw ph field_values field_configs]> (files st)).
Proof.
  intros field_configs today field_values name_field output_filename
    Hname Hemail.
  assert (person_name_of name_field field_values index
          = "person_" +:+ pretty index) as Hperson.
  { unfold person_name_of. by destruct Hname as [->| ->]. }
  split; [done|]. split.
  { unfold output_filename_of. rewrite Hemail, Hperson.
    subst output_filename. by rewrite <- !string_app_assoc. }
  intros pw ph Hopen Hsave.
  pose proof (process_row_files w config template output_folder
                field_configs today index row email pw ph st) as Hrow.
  cbn zeta in Hrow. fold field_values name_field in Hrow.
  rewrite Hperson, <- !string_app_assoc in Hrow.
  by apply Hrow.
Qed.

End Runs.

(** ** File names *)

(** The sanitised name is made of alphanumeric characters and underscores. *)
Lemma safe_name_of_alnum (person_name : string) :
  alnum_or_underscore (safe_name_of person_name) = true.
Proof.
  unfold alnum_or_underscore, safe_name_of.
  induction person_name as [|c s IH]; [done|].
  cbn [PyStr.map_chars PyStr.all_chars]. rewrite IH, andb_true_r.
  destruct (PyStr.isalnum c) eqn:Hc; [by rewrite Hc|done].
Qed.

(** The file name of a row with an email: the person's name as resolved,
    an underscore, the email and [".pdf"]. *)
Lemma output_filename_of_email (name_field : string)
    (field_values : gmap string string) (index : nat) (email : string) :
  field_values !! "email" = Some email →
  output_filename_of name_field field_values index
  = inr (person_name_of name_field field_values index
         +:+ "_" +:+ email +:+ ".pdf").
Proof. intros Hemail. unfold output_filename_of. by rewrite Hemail. Qed.

(** * The sample run *)

Example sample_today : Sample.today = "November 04 2026".
Proof. reflexivity. Qed.

(** The three ways a field in a custom font reaches the page. *)
Example custom_font_reportlab :
  field_ops (Sample.font_world RlDone false) 600%float 800%float
    {[ "title" := "Refuge" ]} "title" Sample.title_layout
  = [ShowPdfPage "fonts/Title.ttf" 10%float
       (DrawCentredString 300%float 400%float "Refuge")].
Proof. vm_compute. reflexivity. Qed.

Example custom_font_direct :
  field_ops (Sample.font_world RlRaised true) 600%float 800%float
    {[ "title" := "Refuge" ]} "title" Sample.title_layout
  = [InsertText 282%float 400%float "Refuge" 10%float
       (Some "/srv/fonts/Title.ttf")].
Proof. vm_compute. reflexivity. Qed.

Example custom_font_fallback :
  field_ops (Sample.font_world RlNoPage false) 600%float 800%float
    {[ "title" := "Refuge" ]} "title" Sample.title_layout
  = [InsertText 282%float 400%float "Refuge" 10%float None].
Proof. vm_compute. reflexivity. Qed.

(** C1: the file name is built from the person's name as it is, not from
    the sanitised name: for the recipient "Jane Doe" the name portion keeps
    its space, although the sanitised name "Jane_Doe" has been computed. *)
Theorem C1_file_name_keeps_raw_name :
  let field_values :=
    resolve_fields Sample.world Sample.layouts Sample.today Sample.jane
      Sample.mappings in
  person_name_of "full_name" field_values 0 = "Jane Doe"
  ∧ safe_name_of "Jane Doe" = "Jane_Doe"
  ∧ alnum_or_underscore "Jane_Doe" = true
  ∧ alnum_or_underscore "Jane Doe" = false
  ∧ output_filename_of "full_name" field_values 0
    = inr "Jane Doe_jane@example.org.pdf"
  ∧ is_Some (files (main Sample.world ["certificates"] initial).1
             !! "out/Jane Doe_jane@example.org.pdf")
  ∧ files (main Sample.world ["certificates"] initial).1
    !! "out/Jane_Doe_jane@example.org.pdf" = None.
Proof. vm_compute. repeat split; eauto. Qed.

(** C2: the date cell of a row is empty and the date field is configured:
    the resolved date is the empty string, not today's date, and the
    certificate gets no date. *)
Theorem C2_empty_date_cell_is_not_today :
  Sample.sam !! "Date" = Some Null
  ∧ dict_mem "date" Sample.layouts = true
  ∧ resolve_fields Sample.world Sample.layouts Sample.today Sample.sam
      Sample.mappings !! "date" = Some ""
  ∧ strftime "%B %d %Y" (now Sample.world) = "November 04 2026"
  ∧ files (main Sample.world ["certificates"] initial).1
    !! "out/person_1_sam@example.org.pdf" = Some [].
Proof. vm_compute. repeat split. Qed.

(** C3 fails as stated: a date cell holding a text the parser rejects is
    resolved to that text, which does not end with a year and a period. *)
Lemma C3_unparsed_text_counterexample :
  Sample.lee !! "Date" = Some (Str "to be announced")
  ∧ notna (Str "to be announced") = true
  ∧ resolve_fields Sample.world Sample.layouts Sample.today Sample.lee
      Sample.mappings !! "date" = Some "to be announced"
  ∧ ends_with_year_and_period "to be announced" = false.
Proof. vm_compute. repeat split. Qed.

(** The amended C3 on the first recipient, whose date cell is a date. *)
Lemma C3_present_date_witness :
  let resolved :=
    resolve_fields Sample.world Sample.layouts Sample.today Sample.jane
      Sample.mappings !! "date" in
  resolved = Some "March 05, 2024."
  ∧ ∃ text, resolved = Some text ∧ ends_with_year_and_period text = true.
Proof.
  assert (NoDup Sample.mappings.*1) as Hnd by compute_done.
  assert (("date", Some "Date") ∈ Sample.mappings) as Hin by compute_done.
  assert (Sample.jane !! "Date"
          = Some (DateTime (mk_datetime 2024 3 5 0 0 0))) as Hrow
    by (vm_compute; reflexivity).
  destruct (C3_present_date_is_formatted Sample.world Sample.layouts
              Sample.today Sample.jane Sample.mappings "Date"
              (DateTime (mk_datetime 2024 3 5 0 0 0)) Hnd Hin
              ltac:(discriminate) Hrow eq_refl) as [Hfmt Hends].
  split; [exact Hfmt|apply Hends; cbn; lia].
Defined.

(** C4 on the sample sheet, with the email mapped to a missing column. *)
Lemma C4_unresolved_email_witness :
  (main Sample.world ["certificates"; "no_email.yaml"] initial).2
  = inl (Raised (KeyError "email")).
Proof.
  refine (proj2 (C4_unresolved_email_raises Sample.world
                   ["certificates"; "no_email.yaml"] Sample.config_no_email
                   [] Sample.jane [Sample.sam; Sample.lee]
                   (612%float, 792%float) initial
                   eq_refl eq_refl eq_refl _ eq_refl _ _)).
  - vm_compute; reflexivity.
  - intros st1. by exists st1.
  - vm_compute; reflexivity.
Defined.

(** C5 on the sample test configuration. *)
Lemma C5_test_mode_witness :
  let r := main Sample.world ["certificates"; "test.yaml"] initial in
  r.2 = inr tt
  ∧ files r.1
    = {[ "out/test_certificate.pdf" :=
           fields_ops Sample.world 612%float 792%float
             (test_field_values Sample.world
                (default [] (fields Sample.test_config)))
             (default [] (fields Sample.test_config)) ]}
  ∧ test_field_values Sample.world (default [] (fields Sample.test_config))
    !! "full_name" = Some "Test full_name".
Proof.
  destruct (C5_test_mode_one_certificate Sample.world
              ["certificates"; "test.yaml"] Sample.test_config
              eq_refl eq_refl) as (_ & Hvalues & _ & _ & _ & Hone & _).
  destruct (Hone 612%float 792%float eq_refl eq_refl eq_refl) as [Hres Hfiles].
  split; [exact Hres|]. split; [exact Hfiles|].
  apply Hvalues; [compute_done|discriminate].
Defined.

(** C6 on the centred name of the first recipient: (612 - 8 * 24 * 0.6) / 2. *)
Lemma C6_centred_default_font_witness :
  (overlay_field Sample.world 612%float 792%float
     {[ "full_name" := "Jane Doe" ]} "full_name" Sample.name_layout []
     initial).2
  = inr [InsertText
           ((612 - num_of_nat 8 * 24 * num_0_6) / 2)%float
           (792 * (40 / 100))%float "Jane Doe" 24%float None].
Proof.
  refine (C6_centred_default_font_position Sample.world 612%float 792%float
            {[ "full_name" := "Jane Doe" ]} "full_name" Sample.name_layout
            "Jane Doe" [] initial _ _ eq_refl (or_introl eq_refl)).
  - vm_compute; reflexivity.
  - discriminate.
Defined.

(** C7 on the date of the first recipient: no [x_percent], so 50, and
    [y_percent] 80, on a page of 612 by 792. *)
Lemma C7_overlay_position_witness :
  let op := InsertText 306%float (792 * (80 / 100))%float "March 05, 2024."
              12%float None in
  op ∈ field_ops Sample.world 612%float 792%float
         {[ "date" := "March 05, 2024." ]} "date" Sample.date_layout
  ∧ ∃ v, ({[ "date" := "March 05, 2024." ]} : gmap string string) !! "date"
         = Some v
         ∧ "March 05, 2024." = v
         ∧ (792 * (80 / 100))%float
           = (792%float * (default (num_of_nat 50) (Some 80%float)
                           / num_of_nat 100))%num
         ∧ 306%float
           = (612%float * (default (num_of_nat 50) None
                           / num_of_nat 100))%num.
Proof.
  assert (InsertText 306%float (792 * (80 / 100))%float "March 05, 2024."
            12%float None
          ∈ field_ops Sample.world 612%float 792%float
              {[ "date" := "March 05, 2024." ]} "date" Sample.date_layout)
    as Hop by (vm_compute; left).
  split; [exact Hop|].
  exact (C7_overlay_position Sample.world 612%float 792%float
           {[ "date" := "March 05, 2024." ]} "date" Sample.date_layout _ Hop).
Defined.

(** C8 on a page where the name has no value and the date is empty. *)
Lemma C8_renderer_skips_witness :
  overlay_fields Sample.world 612%float 792%float {[ "date" := "" ]}
    Sample.layouts [] initial
  = (mk_state ∅
       [Text "Warning: No value provided for field 'full_name', skipping"],
     inr []).
Proof.
  destruct (C8_renderer_skips_missing_and_empty Sample.world 612%float
              792%float {[ "date" := "" ]} Sample.layouts [] initial)
    as [Hrun _].
  rewrite Hrun. vm_compute. reflexivity.
Defined.

(** C9 on a configuration that cannot be loaded, and on one whose
    spreadsheet cannot be read. *)
Lemma C9_fatal_errors_witness :
  (main Sample.world ["certificates"; "broken.yaml"] initial).2
  = inl (SystemExit 1)
  ∧ (main Sample.world ["certificates"; "no_sheet.yaml"] initial).2
    = inl (SystemExit 1)
  ∧ files (main Sample.world ["certificates"; "no_sheet.yaml"] initial).1
    = ∅.
Proof.
  destruct (C9_fatal_errors_exit_1 Sample.world
              ["certificates"; "broken.yaml"] initial) as [Hconfig _].
  destruct (C9_fatal_errors_exit_1 Sample.world
              ["certificates"; "no_sheet.yaml"] initial) as [_ Hsheet].
  destruct (Hconfig eq_refl) as (Hexit & _ & _).
  destruct (Hsheet Sample.config_no_sheet eq_refl eq_refl eq_refl)
    as (_ & Hfiles & Hexit').
  split; [exact Hexit|]. split; [|exact Hfiles].
  apply Hexit'. by eexists.
Defined.

(** C10 on the second recipient, whose name cell is empty. *)
Lemma C10_fallback_person_name_witness :
  output_filename_of "full_name"
    (resolve_fields Sample.world Sample.layouts Sample.today Sample.sam
       Sample.mappings) 1
  = inr "person_1_sam@example.org.pdf".
Proof.
  refine (proj1 (proj2 (C10_fallback_person_name Sample.world Sample.config
                          "template.pdf" "out" 1 Sample.sam
                          "sam@example.org" initial _ _))).
  - right. vm_compute; reflexivity.
  - vm_compute; reflexivity.
Defined.

(** * Further properties of the script *)

(** ** The loop over the rows, from one state and from another *)

Section Frame.
Context {num : Type} `{!Number num}.
Implicit Types (w : World num) (st : State num) (config : Config num).
Implicit Types (fs : gmap string (list (page_op num))).

Lemma stateless_ret {A} (a : A) : stateless (ret (num:=num) a).
Proof.
  exists ∅, [], (inr a). intros [fs out]. unfold ret. cbn.
  by rewrite (left_id_L ∅ (∪)), app_nil_r.
Qed.

Lemma stateless_raise {A} (e : exn) : stateless (raise (num:=num) (A:=A) e).
Proof.
  exists ∅, [], (inl (Raised e)). intros [fs out]. unfold raise. cbn.
  by rewrite (left_id_L ∅ (∪)), app_nil_r.
Qed.

Lemma stateless_print (l : line) : stateless (print (num:=num) l).
Proof.
  exists ∅, [l], (inr tt). intros [fs out]. unfold print. cbn.
  by rewrite (left_id_L ∅ (∪)).
Qed.

Lemma stateless_write_file path (page : list (page_op num)) :
  stateless (write_file path page).
Proof.
  exists {[path := page]}, [], (inr tt). intros [fs out]. unfold write_file.
  cbn. by rewrite insert_union_singleton_l, app_nil_r.
Qed.

Lemma stateless_bind {A B} (m : M (num:=num) A) (k : A → M (num:=num) B) :
  stateless m → (∀ a, stateless (k a)) → stateless (bind m k).
Proof.
  intros (written & lines & [e|a] & Hm) Hk.
  - exists written, lines, (inl e). intros st. unfold bind. by rewrite Hm.
  - destruct (Hk a) as (written' & lines' & res & Hka).
    exists (written' ∪ written), (lines ++ lines'), res. intros st.
    unfold bind. rewrite Hm, Hka. cbn.
    by rewrite (assoc_L (∪)), app_assoc.
Qed.

Lemma stateless_for_each {A} (l : list A) (body : A → M (num:=num) unit) :
  (∀ a, stateless (body a)) → stateless (for_each l body).
Proof.
  intros Hbody. induction l as [|a l IH]; cbn [for_each].
  - apply stateless_ret.
  - apply stateless_bind; [apply Hbody|intros _; apply IH].
Qed.

Lemma stateless_overlay_fields w pw ph field_values field_configs page :
  stateless (overlay_fields w pw ph field_values field_configs page).
Proof.
  eexists ∅, _, _. intros st. rewrite overlay_fields_run.
  by rewrite (left_id_L ∅ (∪)).
Qed.

Lemma stateless_open_first_page w path : stateless (open_first_page w path).
Proof.
  unfold open_first_page.
  destruct (fitz_open w path); [apply stateless_ret|apply stateless_raise].
Qed.

Lemma stateless_add_text_overlay w input output field_values field_configs :
  stateless (add_text_overlay w input output field_values field_configs).
Proof.
  unfold add_text_overlay.
  apply stateless_bind; [apply stateless_open_first_page|intros [pw ph]].
  apply stateless_bind; [apply stateless_print|intros _].
  apply stateless_bind; [apply stateless_overlay_fields|intros page].
  apply stateless_bind; [|intros _; apply stateless_print].
  destruct (doc_save w output);
    [apply stateless_write_file|apply stateless_raise].
Qed.

Lemma stateless_process_row w config template output_folder field_configs
    today index row :
  stateless (process_row w config template output_folder field_configs today
               index row).
Proof.
  unfold process_row.
  destruct (output_filename_of _ _ _); [apply stateless_raise|].
  repeat first [ apply stateless_print | apply stateless_add_text_overlay
               | apply stateless_bind; [|intros ?] ].
Qed.

Lemma stateless_process_rows w config df : stateless (process_rows w config df).
Proof.
  apply stateless_for_each. intros [index row].
  apply stateless_process_row.
Qed.

End Frame.

(** ** The field resolver, followed by the renderer *)

Section ResolvedRows.
Context {num : Type} `{!Number num} (w : World num).
Implicit Types (config : Config num) (row : gmap string cell).
Implicit Types (layout : FieldConfig num).

Lemma string_app_empty_r (s : string) : s +:+ "" = s.
Proof.
  induction s as [|c s IH]; [done|].
  change (String c (s +:+ "") = String c s). by rewrite IH.
Qed.

(** The fallback date: month name, two-digit day, year. *)
Lemma strftime_fallback (d : datetime) :
  strftime "%B %d %Y" d
  = month_name (dt_month d) +:+ " "
    +:+ PyStr.zfill 2 (pretty (dt_day d)) +:+ " "
    +:+ pretty (dt_year d).
Proof.
  change (strftime "%B %d %Y" d)
    with (month_name (dt_month d) +:+ " "
          +:+ PyStr.zfill 2 (pretty (dt_day d)) +:+ " "
          +:+ pretty (dt_year d) +:+ "").
  by rewrite string_app_empty_r.
Qed.

(** Padding to four digits changes nothing from the year 1000 on. *)
Lemma zfill_year (y : N) :
  (1000 ≤ y ≤ 9999)%N → PyStr.zfill 4 (pretty y) = pretty y.
Proof.
  intros (a & b & c & d & -> & _)%pretty_year_digits. reflexivity.
Qed.

(** X1: when the column mapped to the date is not in the row, or the
    mapping names no column, and the date is a configured field, the row's
    date is today's date written as month name, two-digit day and year,
    separated by spaces; the year has four digits from the year 1000 on. *)
Theorem X1_absent_date_column_gets_today config row excel_column :
  NoDup (default [] (field_mappings config)).*1 →
  ("date", excel_column) ∈ default [] (field_mappings config) →
  (excel_column = None ∨ excel_column = Some ""
   ∨ ∃ column, excel_column = Some column ∧ row !! column = None) →
  "date" ∈ (default [] (fields config)).*1 →
  row_field_values w config row !! "date"
  = Some (month_name (dt_month (now w)) +:+ " "
          +:+ PyStr.zfill 2 (pretty (dt_day (now w))) +:+ " "
          +:+ pretty (dt_year (now w)))
  ∧ ((1000 ≤ dt_year (now w) ≤ 9999)%N →
     row_field_values w config row !! "date"
     = Some (month_name (dt_month (now w)) +:+ " "
             +:+ PyStr.zfill 2 (pretty (dt_day (now w))) +:+ " "
             +:+ PyStr.zfill 4 (pretty (dt_year (now w))))).
Proof.
  intros Hnd Hin Hcol Hcfg.
  assert (row_field_values w config row !! "date"
          = Some (strftime "%B %d %Y" (now w))) as ->.
  { unfold row_field_values.
    apply (date_column_absent w _ _ _ _ _ Hnd Hin Hcol).
    unfold dict_mem. by rewrite bool_decide_eq_true_2. }
  rewrite strftime_fallback. split; [done|].
  intros Hyear. by rewrite (zfill_year _ Hyear).
Qed.

(** X2: a field without an entry in the mappings (the date included, even
    when it is configured), and a field whose column is not in the row
    (the configured date apart), is left out of the row's resolved set; the
    renderer then draws nothing for it and prints the warning. *)
Theorem X2_unmapped_or_absent_field_is_left_out
    config row k layout pw ph :
  NoDup (default [] (field_mappings config)).*1 →
  (k ∉ (default [] (field_mappings config)).*1
   ∨ ∃ excel_column,
       (k, excel_column) ∈ default [] (field_mappings config)
       ∧ (excel_column = None ∨ excel_column = Some ""
          ∨ ∃ column, excel_column = Some column ∧ row !! column = None)
       ∧ (k ≠ "date" ∨ "date" ∉ (default [] (fields config)).*1)) →
  row_field_values w config row !! k = None
  ∧ field_ops w pw ph (row_field_values w config row) k layout = []
  ∧ field_lines w pw ph (row_field_values w config row) k layout
    = [Text ("Warning: No value provided for field '" +:+ k
             +:+ "', skipping")].
Proof.
  intros Hnd Hk.
  assert (row_field_values w config row !! k = None) as Hno.
  { unfold row_field_values.
    destruct Hk as [Hk|(excel_column & Hin & Hcol & Hdate)];
      [by apply resolve_fields_unmapped|].
    rewrite (resolve_fields_lookup w _ _ _ _ _ _ Hnd Hin).
    unfold resolve_field.
    assert ((k =? "date")%string && dict_mem k (default [] (fields config))
            = false) as ->.
    { destruct Hdate as [Hne|Hcfg].
      - by apply String.eqb_neq in Hne as ->.
      - destruct (String.eqb_spec k "date") as [->|]; [|done].
        unfold dict_mem. by rewrite bool_decide_eq_false_2. }
    destruct Hcol as [->|[->|(column & -> & Hrow)]]; [done..|].
    rewrite Hrow. by destruct (PyStr.truthy column). }
  split; [done|]. by apply field_ops_absent.
Qed.

(** X3: an empty cell (NaN) under a mapped column resolves the field, the
    date included, to the empty string; the renderer then draws nothing for
    it and prints nothing, not even the warning. *)
Theorem X3_empty_cell_is_skipped_silently config row k column layout pw ph :
  NoDup (default [] (field_mappings config)).*1 →
  (k, Some column) ∈ default [] (field_mappings config) →
  column ≠ "" → row !! column = Some Null →
  row_field_values w config row !! k = Some ""
  ∧ field_ops w pw ph (row_field_values w config row) k layout = []
  ∧ field_lines w pw ph (row_field_values w config row) k layout = [].
Proof.
  intros Hnd Hin Hcol Hrow.
  assert (row_field_values w config row !! k = Some "") as Hempty.
  { unfold row_field_values.
    rewrite (resolve_fields_lookup w _ _ _ _ _ _ Hnd Hin).
    unfold resolve_field. rewrite Hrow.
    destruct column; [done|]. cbn [PyStr.truthy notna].
    rewrite andb_false_r. by rewrite lookup_insert_eq. }
  split; [done|]. by apply field_ops_empty.
Qed.

(** X4: for a field other than the date, a non-empty cell under the mapped
    column resolves to [str] of the cell, whatever the cell holds (a date
    included, which is not reformatted); when that text is not empty the
    renderer draws it exactly once. *)
Theorem X4_cell_of_other_field_is_copied
    config row k column value layout pw ph :
  NoDup (default [] (field_mappings config)).*1 →
  (k, Some column) ∈ default [] (field_mappings config) →
  k ≠ "date" → column ≠ "" →
  row !! column = Some value → notna value = true →
  row_field_values w config row !! k = Some (py_str value)
  ∧ (py_str value ≠ "" →
     ∃ op, field_ops w pw ph (row_field_values w config row) k layout = [op]).
Proof.
  intros Hnd Hin Hk Hcol Hrow Hna.
  assert (row_field_values w config row !! k = Some (py_str value)) as Hv.
  { unfold row_field_values.
    rewrite (resolve_fields_lookup w _ _ _ _ _ _ Hnd Hin).
    unfold resolve_field. rewrite Hrow, Hna.
    apply String.eqb_neq in Hk as ->.
    destruct column; [done|]. cbn [PyStr.truthy andb].
    by rewrite lookup_insert_eq. }
  split; [done|]. intros Hne.
  pose proof (field_ops_drawn w pw ph _ _ layout _ Hv Hne) as Hlen.
  destruct (field_ops w pw ph (row_field_values w config row) k layout)
    as [|op [|? ?]]; try done.
  by exists op.
Qed.

End ResolvedRows.

(** ** Alignment and fonts *)

Section Layout.
Context {num : Type} `{!Number num} (w : World num).
Implicit Types (config : FieldConfig num) (st : State num).
Implicit Types (field_values : gmap string string).

Lemma not_center (a : option string) :
  a ≠ Some "center" → (default "left" a =? "center")%string = false.
Proof.
  intros Ha. destruct a as [s|]; [|done]. cbn [default from_option id].
  apply String.eqb_neq. congruence.
Qed.

(** X5: "center" is the only alignment that moves the text: with any other
    value (["right"], ["centre"], a missing key) the field is drawn and
    reported exactly as with the default, left alignment at the computed
    position. *)
Theorem X5_only_center_is_centred
    pw ph field_values field_name config page st :
  alignment config ≠ Some "center" →
  overlay_field w pw ph field_values field_name config page st
  = overlay_field w pw ph field_values field_name
      (with_alignment None config) page st.
Proof.
  intros Ha. unfold overlay_field, with_alignment.
  cbn [x_percent y_percent font_size alignment font].
  rewrite (not_center _ Ha).
  by change (default "left" None =? "center")%string with false.
Qed.

(** X6: a configured font whose file is not on disk (or an empty font
    name) is ignored without a message: the field is drawn and reported
    exactly as if no font were configured. *)
Theorem X6_missing_font_file_is_ignored
    pw ph field_values field_name config fp page st :
  font config = Some fp →
  (fp = "" ∨ path_exists w fp = false) →
  overlay_field w pw ph field_values field_name config page st
  = overlay_field w pw ph field_values field_name
      (with_font None config) page st.
Proof.
  intros Hfont Hfp. unfold overlay_field, with_font.
  cbn [x_percent y_percent font_size alignment font]. rewrite Hfont.
  assert (PyStr.truthy fp && path_exists w fp = false) as ->; [|done].
  destruct Hfp as [->| ->]; [done|apply andb_false_r].
Qed.

(** X7: a field in a custom font that is on disk is drawn by the first
    method that works, and only by that one: the ReportLab page, placed at
    the centre of the page width for centred text and at [x] otherwise, with
    the vertical coordinate counted from the bottom ([page_height - y]);
    else [insert_text] with the absolute path of the font file; else
    [insert_text] with the built-in font.  Both [insert_text] calls use the
    estimated centred position for centred text. *)
Theorem X7_custom_font_fallback_order
    pw ph field_values field_name config fp v :
  field_values !! field_name = Some v → v ≠ "" →
  font config = Some fp → fp ≠ "" → path_exists w fp = true →
  let x := (pw * (default (num_of_nat 50) (x_percent config)
                  / num_of_nat 100))%num in
  let y := (ph * (default (num_of_nat 50) (y_percent config)
                  / num_of_nat 100))%num in
  let font_size := default (num_of_nat 12) (font_size config) in
  let centre := String.eqb (default "left" (alignment config)) "center" in
  let x_text := if centre then centred_x pw font_size v else x in
  field_ops w pw ph field_values field_name config
  = [ match reportlab w fp v with
      | RlDone =>
          ShowPdfPage fp font_size
            (if centre
             then DrawCentredString (pw / num_of_nat 2)%num (ph - y)%num v
             else DrawString x (ph - y)%num v)
      | _ =>
          InsertText x_text y v font_size
            (if insert_text_fontfile w fp v then Some (abspath w fp)
             else None)
      end ].
Proof.
  intros Hv Hne Hfont Hfp Hexists x y font_size centre x_text.
  subst x y font_size centre x_text.
  unfold field_ops, page_of, overlay_field. rewrite Hv, Hfont, Hexists.
  destruct v as [|c v]; [done|]. destruct fp as [|c' fp]; [done|].
  cbn [PyStr.truthy negb andb].
  by destruct (reportlab w _ _); destruct (insert_text_fontfile w _ _);
    destruct (default "left" (alignment config) =? "center")%string.
Qed.

(** The date of the test certificate is never empty. *)
Lemma strftime_test_nonempty (d : datetime) : strftime "%B %d, %Y" d ≠ "".
Proof.
  change (strftime "%B %d, %Y" d)
    with (month_name (dt_month d)
          +:+ String " " (strftime "%d, %Y" d)).
  by destruct (month_name (dt_month d)).
Qed.

Lemma test_field_values_nonempty
    (field_configs : list (string * FieldConfig num)) name :
  name ∈ field_configs.*1 →
  ∃ v, test_field_values w field_configs !! name = Some v ∧ v ≠ "".
Proof.
  intros Hname. unfold test_field_values.
  destruct (dict_mem "date" field_configs).
  - destruct (decide (name = "date")) as [->|Hne].
    + rewrite lookup_insert_eq. eexists. split; [done|].
      apply strftime_test_nonempty.
    + rewrite lookup_insert_ne by done.
      rewrite placeholder_values_lookup by done. by eexists.
  - rewrite placeholder_values_lookup by done. by eexists.
Qed.

(** A page holds one operation for each configured field that has a
    non-empty value. *)
Lemma fields_ops_all_drawn pw ph field_values
    (field_configs : list (string * FieldConfig num)) :
  (∀ name, name ∈ field_configs.*1 →
           ∃ v, field_values !! name = Some v ∧ v ≠ "") →
  length (fields_ops w pw ph field_values field_configs)
  = length field_configs.
Proof.
  induction field_configs as [|[name config] rest IH]; intros Hall; [done|].
  unfold fields_ops. cbn [flat_map]. rewrite length_app.
  destruct (Hall name) as (v & Hv & Hne); [by left|].
  rewrite (field_ops_drawn w pw ph _ _ config _ Hv Hne).
  cbn [length Nat.add]. f_equal. apply IH.
  intros name' Hin. apply Hall. by right.
Qed.

(** X8: the test certificate shows the whole layout: every configured
    field has a non-empty placeholder, so none is skipped, and the page
    holds exactly one drawing operation for each configured field. *)
Theorem X8_test_certificate_draws_every_field
    pw ph (field_configs : list (string * FieldConfig num)) :
  (∀ name, name ∈ field_configs.*1 →
           ∃ v, test_field_values w field_configs !! name = Some v
                ∧ v ≠ "")
  ∧ length (fields_ops w pw ph (test_field_values w field_configs)
              field_configs)
    = length field_configs.
Proof.
  split; [apply test_field_values_nonempty|].
  apply fields_ops_all_drawn, test_field_values_nonempty.
Qed.

End Layout.

(** ** Output paths *)

Lemma list_ascii_of_string_inj (s1 s2 : string) :
  list_ascii_of_string s1 = list_ascii_of_string s2 → s1 = s2.
Proof.
  intros Heq.
  by rewrite <- (string_of_list_ascii_of_string s1),
    <- (string_of_list_ascii_of_string s2), Heq.
Qed.

Lemma string_app_inv_tail (s1 s2 t : string) :
  s1 +:+ t = s2 +:+ t → s1 = s2.
Proof.
  intros Heq. apply list_ascii_of_string_inj.
  apply (f_equal list_ascii_of_string) in Heq.
  rewrite !list_ascii_of_string_app in Heq.
  by apply app_inv_tail in Heq.
Qed.

Lemma string_app_inv_head (s t1 t2 : string) :
  s +:+ t1 = s +:+ t2 → t1 = t2.
Proof.
  intros Heq. apply list_ascii_of_string_inj.
  apply (f_equal list_ascii_of_string) in Heq.
  rewrite !list_ascii_of_string_app in Heq.
  by apply app_inv_head in Heq.
Qed.

Lemma string_length_app (s1 s2 : string) :
  String.length (s1 +:+ s2) = String.length s1 + String.length s2.
Proof.
  induction s1 as [|c s1 IH]; [done|].
  change (S (String.length (s1 +:+ s2))
          = S (String.length s1 + String.length s2)).
  by rewrite IH.
Qed.

Lemma startswith_truthy (s : string) (c : ascii) :
  PyStr.startswith s c = true → PyStr.truthy s = true.
Proof. by destruct s. Qed.

Lemma startswith_app (s t : string) (c : ascii) :
  PyStr.startswith s c = true → PyStr.startswith (s +:+ t) c = true.
Proof. by destruct s. Qed.

Section OutputPaths.
Context {num : Type} `{!Number num} (w : World num).
Implicit Types (config : Config num) (row : gmap string cell).
Implicit Types (st : State num).

(** X9: the person's name goes into the path as it is: when it begins
    with ["/"], [os.path.join] drops the output folder and the certificate
    is saved at the absolute path made of the name, an underscore, the email
    and [".pdf"], outside the configured output folder. *)
Theorem X9_absolute_name_leaves_output_folder
    config index row name email pw ph st :
  let output_path := name +:+ "_" +:+ email +:+ ".pdf" in
  row_field_values w config row
    !! default "full_name" (name_field config) = Some name →
  PyStr.startswith name "/" = true →
  row_field_values w config row !! "email" = Some email →
  fitz_open w (default "certificate_template.pdf"
                 (template_pdf_path config)) = Some (pw, ph) →
  doc_save w output_path = true →
  row_output_path w config index row = inr output_path
  ∧ files (process_rows w config [(index, row)] st).1
    = <[output_path :=
          fields_ops w pw ph (row_field_values w config row)
            (default [] (fields config))]> (files st).
Proof.
  intros output_path Hname Hslash Hemail Hopen Hsave.
  subst output_path.
  assert (person_name_of (default "full_name" (name_field config))
            (row_field_values w config row) index = name) as Hperson.
  { unfold person_name_of.
    by rewrite Hname, (startswith_truthy _ _ Hslash). }
  assert (os_path_join
            (default "completed_certificates" (output_folder config))
            (name +:+ "_" +:+ email +:+ ".pdf")
          = name +:+ "_" +:+ email +:+ ".pdf") as Hjoin.
  { unfold os_path_join. by rewrite (startswith_app _ _ _ Hslash). }
  split.
  { unfold row_output_path.
    rewrite (output_filename_of_email _ _ _ _ Hemail), Hperson.
    by rewrite Hjoin. }
  unfold process_rows. cbn [for_each]. unfold bind.
  pose proof (process_row_files w config
                (default "certificate_template.pdf"
                   (template_pdf_path config))
                (default "completed_certificates" (output_folder config))
                (default [] (fields config)) (strftime "%B %d %Y" (now w))
                index row email pw ph st) as Hrow.
  cbn zeta in Hrow. fold (row_field_values w config row) in Hrow.
  rewrite Hperson, Hjoin in Hrow.
  destruct (Hrow Hemail Hopen Hsave) as [Hres Hfiles].
  destruct (process_row w config _ _ _ _ index row st) as [st' [e|[]]];
    [done|]. exact Hfiles.
Qed.

End OutputPaths.

(** X10: the file name tells recipients apart as long as they share the
    name or share the email: two rows with the same file name and the same
    person name have the same email, and two rows with the same file name
    and the same email have the same person name. *)
Theorem X10_file_name_separates_name_or_email
    (name_field : string) (fv1 fv2 : gmap string string) (i j : nat)
    (email1 email2 : string) :
  fv1 !! "email" = Some email1 → fv2 !! "email" = Some email2 →
  (person_name_of name_field fv1 i = person_name_of name_field fv2 j
   ∨ email1 = email2) →
  output_filename_of name_field fv1 i = output_filename_of name_field fv2 j →
  person_name_of name_field fv1 i = person_name_of name_field fv2 j
  ∧ email1 = email2.
Proof.
  intros He1 He2 Hsame.
  rewrite (output_filename_of_email _ _ _ _ He1),
    (output_filename_of_email _ _ _ _ He2).
  intros [= Heq]. destruct Hsame as [Hp| ->].
  - split; [done|]. rewrite Hp in Heq.
    apply string_app_inv_head in Heq.
    apply (string_app_inv_head "_") in Heq.
    by apply string_app_inv_tail in Heq.
  - split; [|done].
    by apply (string_app_inv_tail _ _ ("_" +:+ email2 +:+ ".pdf")) in Heq.
Qed.

(** X11: the underscore does not separate: a recipient named [n_a] with
    email [b] and a recipient named [n] with email [a_b] get the same file
    name, so the second certificate replaces the first. *)
Theorem X11_underscore_makes_names_collide
    (name_field : string) (fv1 fv2 : gmap string string) (i j : nat)
    (n a b : string) :
  n ≠ "" →
  fv1 !! name_field = Some (n +:+ "_" +:+ a) → fv1 !! "email" = Some b →
  fv2 !! name_field = Some n → fv2 !! "email" = Some (a +:+ "_" +:+ b) →
  output_filename_of name_field fv1 i = output_filename_of name_field fv2 j
  ∧ output_filename_of name_field fv1 i
    = inr (n +:+ "_" +:+ a +:+ "_" +:+ b +:+ ".pdf").
Proof.
  intros Hn Hn1 He1 Hn2 He2.
  rewrite (output_filename_of_email _ _ _ _ He1),
    (output_filename_of_email _ _ _ _ He2).
  unfold person_name_of. rewrite Hn1, Hn2.
  destruct n as [|c n]; [done|].
  change (PyStr.truthy (String c n +:+ "_" +:+ a)) with true.
  cbn [PyStr.truthy]. by rewrite <- !string_app_assoc.
Qed.

(** ** The batch *)

Section Batch.
Context {num : Type} `{!Number num} (w : World num).
Implicit Types (config : Config num) (row : gmap string cell).
Implicit Types (st : State num).
Implicit Types (fs : gmap string (list (page_op num))).

(** What a stateless computation leaves depends on the files before it
    only. *)
Lemma stateless_outcome {A} (m : M (num:=num) A) st1 st2 :
  stateless m → files st1 = files st2 → outcome (m st1) = outcome (m st2).
Proof.
  intros (written & lines & res & Hm) Hfiles. unfold outcome.
  rewrite !Hm. cbn. by rewrite Hfiles.
Qed.

(** How it ends depends on the state not at all. *)
Lemma stateless_result {A} (m : M (num:=num) A) st1 st2 :
  stateless m → (m st1).2 = (m st2).2.
Proof. intros (written & lines & res & Hm). by rewrite !Hm. Qed.

Lemma write_all_app (ws1 ws2 : list (string * list (page_op num))) fs :
  write_all (ws1 ++ ws2) fs = write_all ws2 (write_all ws1 fs).
Proof. unfold write_all. by rewrite fold_left_app. Qed.

Lemma write_all_other (ws : list (string * list (page_op num))) fs path :
  path ∉ ws.*1 → write_all ws fs !! path = fs !! path.
Proof.
  revert fs. induction ws as [|[p page] ws IH]; intros fs Hp; [done|].
  rewrite fmap_cons in Hp. apply not_elem_of_cons in Hp as [Hne Hp].
  change (write_all ((p, page) :: ws) fs)
    with (write_all ws (<[p := page]> fs)).
  rewrite IH by done. by rewrite lookup_insert_ne.
Qed.

Lemma process_rows_app config (l1 l2 : list (nat * gmap string cell)) st :
  process_rows w config (l1 ++ l2) st
  = match process_rows w config l1 st with
    | (st', inr _) => process_rows w config l2 st'
    | (st', inl e) => (st', inl e)
    end.
Proof. unfold process_rows. apply for_each_app. Qed.

(** The output path of a row: its email is resolved, and the path is the
    output folder joined with the person's name, the email and [".pdf"]. *)
Lemma row_output_path_inv config index row path :
  row_output_path w config index row = inr path →
  ∃ email,
    row_field_values w config row !! "email" = Some email
    ∧ path
      = os_path_join
          (default "completed_certificates" (output_folder config))
          (person_name_of (default "full_name" (name_field config))
             (row_field_values w config row) index
           +:+ "_" +:+ email +:+ ".pdf").
Proof.
  unfold row_output_path, output_filename_of.
  destruct (row_field_values w config row !! "email") as [email|]; [|done].
  intros [= <-]. by exists email.
Qed.

(** One turn of the loop over the rows, for a row that has an output
    path, on a template that opens. *)
Lemma process_row_outcome config index row path pw ph st :
  row_output_path w config index row = inr path →
  fitz_open w (default "certificate_template.pdf"
                 (template_pdf_path config)) = Some (pw, ph) →
  outcome (process_rows w config [(index, row)] st)
  = if doc_save w path then
      (<[path := fields_ops w pw ph (row_field_values w config row)
                   (default [] (fields config))]> (files st), inr tt)
    else (files st, inl (Raised (LibraryError "doc.save"))).
Proof.
  intros (email & Hemail & ->)%row_output_path_inv Hopen.
  unfold process_rows. cbn [for_each].
  unfold bind at 1.
  rewrite (process_row_email w _ _ _ _ _ _ _ _ _ Hemail).
  fold (row_field_values w config row).
  unfold bind, print, ret. cbn [files stdout].
  rewrite (add_text_overlay_run w _ _ _ _ _ _ _ Hopen).
  by destruct (doc_save w _).
Qed.

(** The loop over rows that all have an output path the disk accepts. *)
Lemma process_rows_saved config (l : list (nat * gmap string cell)) pw ph st :
  fitz_open w (default "certificate_template.pdf"
                 (template_pdf_path config)) = Some (pw, ph) →
  (∀ index row, (index, row) ∈ l →
     ∃ path, row_output_path w config index row = inr path
             ∧ doc_save w path = true) →
  outcome (process_rows w config l st)
  = (write_all (omap (row_write w config pw ph) l) (files st), inr tt).
Proof.
  intros Hopen. revert st.
  induction l as [|[index row] l IH]; intros st Hall; [done|].
  destruct (Hall index row) as (path & Hpath & Hsave); [by left|].
  pose proof (process_row_outcome config index row path pw ph st Hpath Hopen)
    as Hrow.
  rewrite Hsave in Hrow.
  change ((index, row) :: l) with ([(index, row)] ++ l).
  rewrite process_rows_app.
  destruct (process_rows w config [(index, row)] st) as [st' [e|[]]];
    apply outcome_inv in Hrow as [Hfiles Hres]; [done|].
  cbn [fst] in Hfiles.
  rewrite IH by (intros i r Hin; apply Hall; by right).
  assert (row_write w config pw ph (index, row)
          = Some (path, fields_ops w pw ph (row_field_values w config row)
                          (default [] (fields config)))) as Hwrite.
  { unfold row_write. cbn [fst snd]. by rewrite Hpath. }
  cbn [app omap list_omap]. rewrite Hwrite.
  change (write_all (?x :: ?l) ?fs)
    with (write_all l (<[x.1 := x.2]> fs)).
  cbn [fst snd]. by rewrite Hfiles.
Qed.

Lemma main_normal_run argv config st :
  safe_load w (default "certificate_config.yaml" (argv !! 1))
  = Some config →
  default false (test_mode config) = false →
  main w argv st
  = match
      process_certificates w config
        (mk_state (files st)
           (stdout st
            ++ [Text ("Loaded configuration from "
                      +:+ default "certificate_config.yaml" (argv !! 1));
                Text "Processing certificates from Excel data..."]))
    with
    | (st', inr _) =>
        (mk_state (files st')
           (stdout st'
            ++ [Text "";
                Text "If the text positioning needs adjustment, modify the x_percent and y_percent values in your YAML configuration."]),
         inr tt)
    | (st', inl e) => (st', inl e)
    end.
Proof.
  intros Hload Htest. unfold main, load_config. rewrite Hload.
  unfold bind, print, ret. cbn [files stdout]. rewrite Htest.
  cbn [files stdout]. rewrite <- app_assoc. cbn [app].
  destruct (process_certificates w config _) as [st' [e|[]]]; [done|].
  by rewrite <- app_assoc.
Qed.

(** A run in normal mode, for a template and a sheet that can be read:
    what it leaves is what the loop over the rows leaves. *)
Lemma main_batch_outcome argv config df rect st :
  safe_load w (default "certificate_config.yaml" (argv !! 1))
  = Some config →
  default false (test_mode config) = false →
  fitz_open w (default "certificate_template.pdf"
                 (template_pdf_path config)) = Some rect →
  read_excel w (default "refuge_names.xlsx" (excel_path config)) = Some df →
  makedirs w (default "completed_certificates" (output_folder config))
  = true →
  outcome (main w argv st) = outcome (process_rows w config (imap pair df) st).
Proof.
  intros Hload Htest Hopen Hread Hmk.
  rewrite (main_normal_run _ _ _ Hload Htest).
  rewrite (process_certificates_run w _ _ _ _ Hopen Hread Hmk).
  unfold bind at 1.
  match goal with |- context [for_each (imap pair df) ?b ?s] =>
    change (for_each (imap pair df) b s)
      with (process_rows w config (imap pair df) s);
    rewrite <- (stateless_outcome _ s st
                  (stateless_process_rows w config (imap pair df)) eq_refl);
    destruct (process_rows w config (imap pair df) s) as [st' [e|[]]]
  end; done.
Qed.

End Batch.

Section Runs2.
Context {num : Type} `{!Number num}.
Implicit Types (w : World num) (st : State num) (config : Config num).
Implicit Types (row : gmap string cell).

(** X14: a sheet without rows is not an error: the run reads the template
    for the diagnostics, creates the output folder, writes no file, reports
    zero certificates and ends normally. *)
Theorem X14_empty_sheet_completes w argv config rect st :
  let config_path := default "certificate_config.yaml" (argv !! 1) in
  let template :=
    default "certificate_template.pdf" (template_pdf_path config) in
  let excel := default "refuge_names.xlsx" (excel_path config) in
  safe_load w config_path = Some config →
  default false (test_mode config) = false →
  fitz_open w template = Some rect →
  read_excel w excel = Some [] →
  makedirs w (default "completed_certificates" (output_folder config))
  = true →
  main w argv st
  = (mk_state (files st)
       (stdout st
        ++ [Text ("Loaded configuration from " +:+ config_path);
            Text "Processing certificates from Excel data...";
            Text ("Analyzing PDF: " +:+ template);
            TextThenValue "Number of pages: ";
            TextThenValue "Page dimensions: ";
            Text ("Successfully read Excel file: " +:+ excel);
            TextThenValue "Excel columns found: ";
            Text "Completed processing 0 certificates.";
            Text "";
            Text "If the text positioning needs adjustment, modify the x_percent and y_percent values in your YAML configuration."]),
     inr tt).
Proof.
  intros config_path template excel Hload Htest Hopen Hread Hmk.
  subst config_path template excel.
  rewrite (main_normal_run w _ _ _ Hload Htest).
  rewrite (process_certificates_run w _ _ _ _ Hopen Hread Hmk).
  cbn [imap for_each length]. unfold bind, ret, print. cbn [files stdout].
  by rewrite <- !app_assoc.
Qed.

(** X15: the template is opened before anything else is read or written:
    when it cannot be opened the run ends with the library's exception, not
    caught, and no file written, in normal mode whatever the spreadsheet and
    the output folder are, and in test mode once the output folder has been
    created. *)
Theorem X15_unreadable_template_is_not_caught w argv config st :
  safe_load w (default "certificate_config.yaml" (argv !! 1))
  = Some config →
  fitz_open w (default "certificate_template.pdf"
                 (template_pdf_path config)) = None →
  (test_mode config = Some true →
   makedirs w (default "completed_certificates" (output_folder config))
   = true) →
  outcome (main w argv st)
  = (files st, inl (Raised (LibraryError "fitz.open"))).
Proof.
  intros Hload Hopen Hmk.
  destruct (test_mode config) as [[|]|] eqn:Htest.
  - rewrite (main_test_outcome w _ _ _ Hload Htest).
    rewrite process_single_test_outcome, Hopen. by rewrite Hmk.
  - rewrite (main_normal_run w _ _ _ Hload); [|by rewrite Htest].
    unfold process_certificates. unfold bind at 1.
    by rewrite debug_pdf_info_run, Hopen.
  - rewrite (main_normal_run w _ _ _ Hload); [|by rewrite Htest].
    unfold process_certificates. unfold bind at 1.
    by rewrite debug_pdf_info_run, Hopen.
Qed.

(** X16: there is no boundary around a row: when the save of a row's
    certificate is refused, the run ends there with the library's exception,
    the rows after it are not processed, and the certificates of the rows
    before it stay. *)
Theorem X16_refused_save_aborts_the_batch
    w argv config before row after rect path st :
  safe_load w (default "certificate_config.yaml" (argv !! 1))
  = Some config →
  default false (test_mode config) = false →
  fitz_open w (default "certificate_template.pdf"
                 (template_pdf_path config)) = Some rect →
  read_excel w (default "refuge_names.xlsx" (excel_path config))
  = Some (before ++ row :: after) →
  makedirs w (default "completed_certificates" (output_folder config))
  = true →
  (process_rows w config (imap pair before) initial).2 = inr tt →
  row_output_path w config (length before) row = inr path →
  doc_save w path = false →
  (main w argv st).2 = inl (Raised (LibraryError "doc.save"))
  ∧ files (main w argv st).1
    = files (process_rows w config (imap pair before) st).1.
Proof.
  intros Hload Htest Hopen Hread Hmk Hbefore Hpath Hsave.
  pose proof (main_batch_outcome w _ _ _ _ st Hload Htest Hopen Hread Hmk)
    as Hmain.
  rewrite iterrows_app, process_rows_app in Hmain.
  pose proof (stateless_result _ st initial
                (stateless_process_rows w config (imap pair before)))
    as Hsame.
  rewrite Hbefore in Hsame.
  destruct rect as [pw ph].
  destruct (process_rows w config (imap pair before) st) as [st1 [e|[]]];
    [done|].
  cbn [imap] in Hmain.
  change (?x :: imap ?f after) with ([x] ++ imap f after) in Hmain.
  rewrite process_rows_app, Nat.add_0_r in Hmain.
  pose proof (process_row_outcome w config (length before) row path pw ph
                st1 Hpath Hopen) as Hrow.
  rewrite Hsave in Hrow.
  destruct (process_rows w config [(length before, row)] st1)
    as [st2 [e|[]]]; apply outcome_inv in Hrow as [Hfiles Hres]; [|done].
  apply outcome_inv in Hmain as [-> ->]. cbn [fst snd] in *. by subst.
Qed.

(** X17: when every row has an output path that the disk accepts, the run
    ends normally and the files are the ones before it with each row's page
    saved at the row's path, in the order of the sheet: a later row with the
    same path replaces the earlier one. *)
Theorem X17_batch_saves_each_row_in_order w argv config df pw ph st :
  safe_load w (default "certificate_config.yaml" (argv !! 1))
  = Some config →
  default false (test_mode config) = false →
  fitz_open w (default "certificate_template.pdf"
                 (template_pdf_path config)) = Some (pw, ph) →
  read_excel w (default "refuge_names.xlsx" (excel_path config)) = Some df →
  makedirs w (default "completed_certificates" (output_folder config))
  = true →
  (∀ index row, df !! index = Some row →
     ∃ path, row_output_path w config index row = inr path
             ∧ doc_save w path = true) →
  (main w argv st).2 = inr tt
  ∧ files (main w argv st).1
    = write_all (omap (row_write w config pw ph) (imap pair df)) (files st).
Proof.
  intros Hload Htest Hopen Hread Hmk Hrows.
  pose proof (main_batch_outcome w _ _ _ _ st Hload Htest Hopen Hread Hmk)
    as Hmain.
  rewrite (process_rows_saved w config _ pw ph st Hopen) in Hmain.
  - by apply outcome_inv in Hmain as [-> ->].
  - intros index row (i & r & [= -> ->] & Hi)%elem_of_lookup_imap.
    by apply Hrows.
Qed.

End Runs2.

Section Collisions.
Context {num : Type} `{!Number num}.
Implicit Types (w : World num) (st : State num) (config : Config num).
Implicit Types (row : gmap string cell).

(** X18: after a run that saves every row, the file at a row's output
    path holds that row's page unless a later row has the same path: among
    rows with the same name and email the last one is the one that stays. *)
Theorem X18_last_row_with_a_path_stays
    w argv config before row after pw ph path st :
  safe_load w (default "certificate_config.yaml" (argv !! 1))
  = Some config →
  default false (test_mode config) = false →
  fitz_open w (default "certificate_template.pdf"
                 (template_pdf_path config)) = Some (pw, ph) →
  read_excel w (default "refuge_names.xlsx" (excel_path config))
  = Some (before ++ row :: after) →
  makedirs w (default "completed_certificates" (output_folder config))
  = true →
  (∀ index r, (before ++ row :: after) !! index = Some r →
     ∃ p, row_output_path w config index r = inr p ∧ doc_save w p = true) →
  row_output_path w config (length before) row = inr path →
  (∀ j r, after !! j = Some r →
     row_output_path w config (length before + S j) r ≠ inr path) →
  files (main w argv st).1 !! path
  = Some (fields_ops w pw ph (row_field_values w config row)
            (default [] (fields config))).
Proof.
  intros Hload Htest Hopen Hread Hmk Hrows Hpath Hlater.
  pose proof (main_batch_outcome w _ _ _ _ st Hload Htest Hopen Hread Hmk)
    as Hmain.
  rewrite (process_rows_saved w config _ pw ph st Hopen) in Hmain.
  2:{ intros index r (i & r' & [= -> ->] & Hi)%elem_of_lookup_imap.
      by apply Hrows. }
  apply outcome_inv in Hmain as [-> _].
  rewrite iterrows_app, omap_app, write_all_app. cbn [imap].
  assert (row_write w config pw ph (length before + 0, row)
          = Some (path, fields_ops w pw ph (row_field_values w config row)
                          (default [] (fields config)))) as Hwrite.
  { unfold row_write. cbn [fst snd]. by rewrite Nat.add_0_r, Hpath. }
  cbn [omap list_omap]. rewrite Hwrite.
  change (write_all (?x :: ?l) ?fs)
    with (write_all l (<[x.1 := x.2]> fs)).
  cbn [fst snd]. rewrite write_all_other; [by rewrite lookup_insert_eq|].
  intros ([p page] & -> & Hin)%list_elem_of_fmap.
  apply list_elem_of_omap in Hin as ([index r] & Hin & Hw).
  apply elem_of_lookup_imap in Hin as (j & r' & [= -> ->] & Hj).
  unfold row_write in Hw. cbn [fst snd compose] in Hw.
  destruct (row_output_path w config (length before + S j) r')
    as [e|p'] eqn:Hp; [done|].
  injection Hw as -> _. by apply (Hlater j r' Hj).
Qed.

End Collisions.

(** ** Two ways of writing the same day *)

Lemma strftime_formats_differ (d : datetime) :
  strftime "%B %d %Y" d ≠ strftime "%B %d, %Y." d.
Proof.
  rewrite strftime_fallback.
  change (strftime "%B %d, %Y." d)
    with (month_name (dt_month d) +:+ " "
          +:+ PyStr.zfill 2 (pretty (dt_day d)) +:+ ", "
          +:+ pretty (dt_year d) +:+ ".").
  intros Heq. apply (f_equal String.length) in Heq.
  rewrite !string_length_app in Heq. cbn [String.length] in Heq. lia.
Qed.

Section Dates.
Context {num : Type} `{!Number num} (w : World num).
Implicit Types (config : Config num) (row : gmap string cell).

(** X19: the same day is written in two ways within one batch: a row
    without the date column gets today's date as "Month DD YYYY", a row
    whose date cell is today's date gets "Month DD, YYYY.", with a comma and
    a period; the two texts are never equal. *)
Theorem X19_fallback_date_differs_from_cell_date
    config row_without row_with column :
  NoDup (default [] (field_mappings config)).*1 →
  ("date", Some column) ∈ default [] (field_mappings config) →
  column ≠ "" → "date" ∈ (default [] (fields config)).*1 →
  row_without !! column = None →
  row_with !! column = Some (DateTime (now w)) →
  row_field_values w config row_without !! "date"
  = Some (strftime "%B %d %Y" (now w))
  ∧ row_field_values w config row_with !! "date"
    = Some (strftime "%B %d, %Y." (now w))
  ∧ row_field_values w config row_without !! "date"
    ≠ row_field_values w config row_with !! "date".
Proof.
  intros Hnd Hin Hcol Hcfg Hwithout Hwith.
  assert (row_field_values w config row_without !! "date"
          = Some (strftime "%B %d %Y" (now w))) as H1.
  { unfold row_field_values.
    apply (date_column_absent w _ _ _ _ (Some column) Hnd Hin).
    - right. right. by exists column.
    - unfold dict_mem. by rewrite bool_decide_eq_true_2. }
  assert (row_field_values w config row_with !! "date"
          = Some (strftime "%B %d, %Y." (now w))) as H2.
  { unfold row_field_values.
    rewrite (resolve_fields_lookup w _ _ _ _ _ _ Hnd Hin).
    unfold resolve_field. rewrite Hwith, String.eqb_refl.
    destruct column; [done|]. cbn [PyStr.truthy notna andb].
    by rewrite lookup_insert_eq. }
  split; [done|]. split; [done|]. rewrite H1, H2.
  intros [= Heq]. by apply strftime_formats_differ in Heq.
Qed.

End Dates.

(** * The further properties on the sample run *)

Lemma sample_mappings_nodup :
  NoDup (default [] (field_mappings Sample.config)).*1.
Proof. compute_done. Qed.

Lemma sample_date_mapping :
  ("date", Some "Date") ∈ default [] (field_mappings Sample.config).
Proof. compute_done. Qed.

Lemma sample_date_configured :
  "date" ∈ (default [] (fields Sample.config)).*1.
Proof. compute_done. Qed.

(** X1 on the recipient whose row has no date column. *)
Lemma X1_absent_date_column_witness :
  row_field_values Sample.world Sample.config Sample.undated !! "date"
  = Some "November 04 2026".
Proof.
  refine (proj1 (X1_absent_date_column_gets_today Sample.world
                   Sample.config Sample.undated (Some "Date")
                   sample_mappings_nodup sample_date_mapping _
                   sample_date_configured)).
  right. right. exists "Date". split; [reflexivity|].
  vm_compute. reflexivity.
Defined.

(** X2 on the email, mapped to a column the sheet does not have. *)
Lemma X2_absent_email_column_witness :
  row_field_values Sample.world Sample.config_no_email Sample.jane
    !! "email" = None
  ∧ field_ops Sample.world 612%float 792%float
      (row_field_values Sample.world Sample.config_no_email Sample.jane)
      "email" Sample.name_layout = []
  ∧ field_lines Sample.world 612%float 792%float
      (row_field_values Sample.world Sample.config_no_email Sample.jane)
      "email" Sample.name_layout
    = [Text "Warning: No value provided for field 'email', skipping"].
Proof.
  refine (X2_unmapped_or_absent_field_is_left_out Sample.world
            Sample.config_no_email Sample.jane "email" Sample.name_layout
            612%float 792%float _ _).
  - compute_done.
  - right. exists (Some "E-mail"). split; [compute_done|]. split.
    + right. right. exists "E-mail". split; [reflexivity|].
      vm_compute. reflexivity.
    + left. discriminate.
Defined.

(** X3 on the empty date cell of the second recipient. *)
Lemma X3_empty_date_cell_witness :
  row_field_values Sample.world Sample.config Sample.sam !! "date" = Some ""
  ∧ field_ops Sample.world 612%float 792%float
      (row_field_values Sample.world Sample.config Sample.sam)
      "date" Sample.date_layout = []
  ∧ field_lines Sample.world 612%float 792%float
      (row_field_values Sample.world Sample.config Sample.sam)
      "date" Sample.date_layout = [].
Proof.
  refine (X3_empty_cell_is_skipped_silently Sample.world Sample.config
            Sample.sam "date" "Date" Sample.date_layout 612%float 792%float
            sample_mappings_nodup sample_date_mapping _ _).
  - discriminate.
  - vm_compute. reflexivity.
Defined.

(** X4 on the name of the first recipient. *)
Lemma X4_name_cell_witness :
  row_field_values Sample.world Sample.config Sample.jane !! "full_name"
  = Some "Jane Doe"
  ∧ ∃ op, field_ops Sample.world 612%float 792%float
            (row_field_values Sample.world Sample.config Sample.jane)
            "full_name" Sample.name_layout = [op].
Proof.
  destruct (X4_cell_of_other_field_is_copied Sample.world Sample.config
              Sample.jane "full_name" "Name" (Str "Jane Doe")
              Sample.name_layout 612%float 792%float
              sample_mappings_nodup ltac:(compute_done)
              ltac:(discriminate) ltac:(discriminate)
              ltac:(vm_compute; reflexivity) eq_refl) as [Hvalue Hdrawn].
  split; [exact Hvalue|]. apply Hdrawn. discriminate.
Defined.

(** X5 on the name, aligned ["right"]. *)
Lemma X5_right_alignment_witness :
  overlay_field Sample.world 612%float 792%float
    {[ "full_name" := "Jane Doe" ]} "full_name"
    (with_alignment (Some "right") Sample.name_layout) [] initial
  = overlay_field Sample.world 612%float 792%float
      {[ "full_name" := "Jane Doe" ]} "full_name"
      (with_alignment None
         (with_alignment (Some "right") Sample.name_layout)) [] initial.
Proof.
  refine (X5_only_center_is_centred Sample.world 612%float 792%float
            {[ "full_name" := "Jane Doe" ]} "full_name"
            (with_alignment (Some "right") Sample.name_layout) [] initial _).
  discriminate.
Defined.

(** X6 on the name, in a font that is not on disk. *)
Lemma X6_missing_font_witness :
  overlay_field Sample.world 612%float 792%float
    {[ "full_name" := "Jane Doe" ]} "full_name"
    (with_font (Some "fonts/Title.ttf") Sample.name_layout) [] initial
  = overlay_field Sample.world 612%float 792%float
      {[ "full_name" := "Jane Doe" ]} "full_name"
      (with_font None
         (with_font (Some "fonts/Title.ttf") Sample.name_layout))
      [] initial.
Proof.
  refine (X6_missing_font_file_is_ignored Sample.world 612%float 792%float
            {[ "full_name" := "Jane Doe" ]} "full_name"
            (with_font (Some "fonts/Title.ttf") Sample.name_layout)
            "fonts/Title.ttf" [] initial eq_refl _).
  right. reflexivity.
Defined.

(** X7 on the title, when the ReportLab method works. *)
Lemma X7_custom_font_witness :
  field_ops (Sample.font_world RlDone false) 600%float 800%float
    {[ "title" := "Refuge" ]} "title" Sample.title_layout
  = [ShowPdfPage "fonts/Title.ttf" 10%float
       (DrawCentredString (600 / 2)%float (800 - 800 * (50 / 100))%float
          "Refuge")].
Proof.
  refine (X7_custom_font_fallback_order (Sample.font_world RlDone false)
            600%float 800%float {[ "title" := "Refuge" ]} "title"
            Sample.title_layout "fonts/Title.ttf" "Refuge" _ _ eq_refl _
            eq_refl).
  - vm_compute. reflexivity.
  - discriminate.
  - discriminate.
Defined.

(** X9 on the recipient named ["/tmp/x"]. *)
Lemma X9_absolute_name_witness :
  row_output_path Sample.world Sample.config 0 Sample.absolute
  = inr "/tmp/x_x@example.org.pdf"
  ∧ files (process_rows Sample.world Sample.config [(0, Sample.absolute)]
             initial).1
    = <[ "/tmp/x_x@example.org.pdf" :=
           fields_ops Sample.world 612%float 792%float
             (row_field_values Sample.world Sample.config Sample.absolute)
             (default [] (fields Sample.config)) ]> ∅.
Proof.
  refine (X9_absolute_name_leaves_output_folder Sample.world Sample.config
            0 Sample.absolute "/tmp/x" "x@example.org" 612%float 792%float
            initial _ eq_refl _ eq_refl eq_refl).
  - vm_compute. reflexivity.
  - vm_compute. reflexivity.
Defined.

(** X10 on two rows for the same person and the same email. *)
Lemma X10_file_name_witness :
  person_name_of "full_name"
    {[ "full_name" := "Ann"; "email" := "ann@example.org" ]} 0
  = person_name_of "full_name"
      {[ "full_name" := "Ann"; "email" := "ann@example.org" ]} 1
  ∧ "ann@example.org" = "ann@example.org".
Proof.
  refine (X10_file_name_separates_name_or_email "full_name"
            {[ "full_name" := "Ann"; "email" := "ann@example.org" ]}
            {[ "full_name" := "Ann"; "email" := "ann@example.org" ]}
            0 1 "ann@example.org" "ann@example.org" _ _ (or_intror eq_refl)
            _); vm_compute; reflexivity.
Defined.

(** X11 on "Ann_Lee" with email "x@example.org" and "Ann" with email
    "Lee_x@example.org". *)
Lemma X11_underscore_collision_witness :
  output_filename_of "full_name"
    {[ "full_name" := "Ann_Lee"; "email" := "x@example.org" ]} 0
  = output_filename_of "full_name"
      {[ "full_name" := "Ann"; "email" := "Lee_x@example.org" ]} 1
  ∧ output_filename_of "full_name"
      {[ "full_name" := "Ann_Lee"; "email" := "x@example.org" ]} 0
    = inr "Ann_Lee_x@example.org.pdf".
Proof.
  refine (X11_underscore_makes_names_collide "full_name"
            {[ "full_name" := "Ann_Lee"; "email" := "x@example.org" ]}
            {[ "full_name" := "Ann"; "email" := "Lee_x@example.org" ]}
            0 1 "Ann" "Lee" "x@example.org" _ _ _ _ _);
    [discriminate|vm_compute; reflexivity..].
Defined.

(** X14 on the sample configuration with an empty sheet. *)
Lemma X14_empty_sheet_witness :
  (main Sample.empty_sheet_world ["certificates"] initial).2 = inr tt
  ∧ files (main Sample.empty_sheet_world ["certificates"] initial).1 = ∅.
Proof.
  rewrite (X14_empty_sheet_completes Sample.empty_sheet_world
             ["certificates"] Sample.config (612%float, 792%float) initial
             eq_refl eq_refl eq_refl eq_refl eq_refl).
  split; reflexivity.
Defined.

(** X15 on the sample configuration with a template that does not open. *)
Lemma X15_unreadable_template_witness :
  outcome (main Sample.no_template_world ["certificates"] initial)
  = (∅, inl (Raised (LibraryError "fitz.open"))).
Proof.
  refine (X15_unreadable_template_is_not_caught Sample.no_template_world
            ["certificates"] Sample.config initial eq_refl eq_refl _).
  discriminate.
Defined.

(** X16 on the sample sheet, the disk refusing the third certificate. *)
Lemma X16_refused_save_witness :
  (main (Sample.disk_world "out/Lee_lee@example.org.pdf") ["certificates"]
     initial).2
  = inl (Raised (LibraryError "doc.save"))
  ∧ files (main (Sample.disk_world "out/Lee_lee@example.org.pdf")
             ["certificates"] initial).1
    = files (process_rows (Sample.disk_world "out/Lee_lee@example.org.pdf")
               Sample.config (imap pair [Sample.jane; Sample.sam])
               initial).1.
Proof.
  refine (X16_refused_save_aborts_the_batch
            (Sample.disk_world "out/Lee_lee@example.org.pdf")
            ["certificates"] Sample.config [Sample.jane; Sample.sam]
            Sample.lee [] (612%float, 792%float)
            "out/Lee_lee@example.org.pdf" initial
            eq_refl eq_refl eq_refl _ eq_refl _ _ _);
    vm_compute; reflexivity.
Defined.

Lemma sample_rows_saved index row :
  Sample.rows !! index = Some row →
  ∃ path, row_output_path Sample.world Sample.config index row = inr path
          ∧ doc_save Sample.world path = true.
Proof.
  destruct index as [|[|[|index]]]; intros [= <-];
    (eexists; split; [vm_compute; reflexivity|reflexivity]).
Qed.

(** X17 on the sample sheet. *)
Lemma X17_batch_witness :
  (main Sample.world ["certificates"] initial).2 = inr tt
  ∧ files (main Sample.world ["certificates"] initial).1
    = write_all
        (omap (row_write Sample.world Sample.config 612%float 792%float)
           (imap pair Sample.rows)) ∅.
Proof.
  exact (X17_batch_saves_each_row_in_order Sample.world ["certificates"]
           Sample.config Sample.rows 612%float 792%float initial
           eq_refl eq_refl eq_refl eq_refl eq_refl sample_rows_saved).
Defined.

Lemma sample_twins_saved index row :
  ([Sample.jane] ++ Sample.jane_again :: []) !! index = Some row →
  ∃ path, row_output_path Sample.twin_world Sample.config index row
          = inr path
          ∧ doc_save Sample.twin_world path = true.
Proof.
  destruct index as [|[|index]]; intros [= <-];
    (eexists; split; [vm_compute; reflexivity|reflexivity]).
Qed.

(** X18 on a sheet that holds the first recipient twice: the certificate
    of the second row is the one that stays. *)
Lemma X18_last_row_witness :
  files (main Sample.twin_world ["certificates"] initial).1
    !! "out/Jane Doe_jane@example.org.pdf"
  = Some (fields_ops Sample.twin_world 612%float 792%float
            (row_field_values Sample.twin_world Sample.config
               Sample.jane_again)
            (default [] (fields Sample.config))).
Proof.
  refine (X18_last_row_with_a_path_stays Sample.twin_world ["certificates"]
            Sample.config [Sample.jane] Sample.jane_again []
            612%float 792%float "out/Jane Doe_jane@example.org.pdf" initial
            eq_refl eq_refl eq_refl eq_refl eq_refl sample_twins_saved _ _).
  - vm_compute. reflexivity.
  - intros j r Hj. discriminate Hj.
Defined.

(** X19 on a row without the date column and a row dated today. *)
Lemma X19_two_date_formats_witness :
  row_field_values Sample.world Sample.config Sample.undated !! "date"
  = Some "November 04 2026"
  ∧ row_field_values Sample.world Sample.config Sample.dated_today !! "date"
    = Some "November 04, 2026."
  ∧ row_field_values Sample.world Sample.config Sample.undated !! "date"
    ≠ row_field_values Sample.world Sample.config Sample.dated_today
        !! "date".
Proof.
  refine (X19_fallback_date_differs_from_cell_date Sample.world
            Sample.config Sample.undated Sample.dated_today "Date"
            sample_mappings_nodup sample_date_mapping _
            sample_date_configured _ _).
  - discriminate.
  - vm_compute. reflexivity.
  - vm_compute. reflexivity.
Defined.
